(** * WhatsApp-Analyzer: the aggregation, reduction and rendering pipeline

    A shallow embedding of [whatsapp_analyzer.py] (the functions nested in
    [main]) and the properties of its ranking, favourite reduction, word
    filter, date filter, bar chart and calendar heat map.

    Conventions of the embedding:
    - a Python [int] is a [Z];
    - a Python [dict] (and [Counter]) is an association list in insertion
      order: assigning to a present key keeps the key's position;
    - [sorted(..., key=..., reverse=True)] is a stable sort: elements with
      equal keys keep the order they had in the argument;
    - a Python [float] is an IEEE 754 binary64 number ([spec_float] with
      precision 53 and maximal exponent 1024) and its operations are the
      correctly rounded ones; [a / b] on two ints is [float(a) / float(b)],
      which is Python's quotient for ints below [2 ** 53] in magnitude, and
      an int beyond the range of the floats (where Python raises
      [OverflowError]) converts to an infinity;
    - printing is modelled by the list of lines printed, together with the
      exception raised, if any. *)

From Stdlib Require Import ZArith QArith Qround List Sorted Permutation Ascii String DecimalString.
From Stdlib Require Import SpecFloat.
From stdpp Require Import base decidable option list strings.

Local Open Scope Z_scope.

(** ** Python primitives *)

Module Py.

Section Dict.
Context {K V : Type} `{EqDecision K}.

(** [d.get(k)] / [k in d]: the value bound to [k], if any. *)
Fixpoint dict_get (d : list (K * V)) (k : K) : option V :=
  match d with
  | [] => None
  | (k', v') :: d' => if decide (k = k') then Some v' else dict_get d' k
  end.

(** [d[k] = v]: overwrite in place when [k] is bound, append otherwise. *)
Fixpoint dict_set (d : list (K * V)) (k : K) (v : V) : list (K * V) :=
  match d with
  | [] => [(k, v)]
  | (k', v') :: d' =>
      if decide (k = k') then (k', v) :: d' else (k', v') :: dict_set d' k v
  end.

(** [dict(pairs)]: the pairs are assigned from left to right. *)
Definition dict_of (pairs : list (K * V)) : list (K * V) :=
  fold_left (fun d kv => dict_set d (fst kv) (snd kv)) pairs [].

Definition keys (d : list (K * V)) : list K := fmap fst d.
Definition values (d : list (K * V)) : list V := fmap snd d.
Definition items (d : list (K * V)) : list (K * V) := d.
End Dict.

Section Counter.
Context {K : Type} `{EqDecision K}.

(** [Counter(data)]: [for elem in data: self[elem] = self.get(elem, 0) + 1]. *)
Definition Counter (data : list K) : list (K * Z) :=
  fold_left (fun c k => dict_set c k (default 0 (dict_get c k) + 1)) data [].
End Counter.

Section Sorted.
Context {A : Type} (key : A -> Z).

(** Insertion into a list that descends by [key]: [x] goes behind the
    elements with a strictly larger key and in front of all others. *)
Fixpoint insert_desc (x : A) (l : list A) : list A :=
  match l with
  | [] => [x]
  | y :: l' => if key x <? key y then y :: insert_desc x l' else x :: y :: l'
  end.

(** [sorted(l, key=key, reverse=True)]. *)
Definition sorted_rev (l : list A) : list A := foldr insert_desc [] l.
End Sorted.

Section Slice.
Context {A : Type}.

(** The index a slice bound [n] denotes in a list of length [len]. *)
Definition slice_index (len : nat) (n : Z) : nat :=
  if n <? 0 then Z.to_nat (Z.max 0 (Z.of_nat len + n)) else Z.to_nat n.

(** [l[:n]] *)
Definition slice_to (n : Z) (l : list A) : list A :=
  firstn (slice_index (length l) n) l.

(** [l[n:]] *)
Definition slice_from (n : Z) (l : list A) : list A :=
  skipn (slice_index (length l) n) l.
End Slice.

(** [sum(l)], [max(l)] for a non-empty [l], and [len(l)] as an [int]. *)
Definition sum (l : list Z) : Z := fold_left Z.add l 0.

Definition max_of (x : Z) (l : list Z) : Z := fold_left Z.max l x.

Definition len {A : Type} (l : list A) : Z := Z.of_nat (length l).

End Py.

Import Py.

(** Python's [str] methods used by the word filter, on the characters of
    [ascii]: [c.isalnum()], [c.isnumeric()] and [c.lower()] of one character,
    and their extension to strings (the first two are false on the empty
    string). *)
Module Str.

Definition between (lo hi : nat) (c : ascii) : bool :=
  (lo <=? nat_of_ascii c)%nat && (nat_of_ascii c <=? hi)%nat.

Definition char_isdigit (c : ascii) : bool := between 48 57 c.
Definition char_isupper (c : ascii) : bool := between 65 90 c.
Definition char_islower (c : ascii) : bool := between 97 122 c.

Definition char_isalnum (c : ascii) : bool :=
  char_isdigit c || char_isupper c || char_islower c.

Definition char_lower (c : ascii) : ascii :=
  if char_isupper c then ascii_of_nat (nat_of_ascii c + 32) else c.

Fixpoint all_chars (p : ascii -> bool) (s : string) : bool :=
  match s with
  | EmptyString => true
  | String c s' => p c && all_chars p s'
  end.

Definition nonempty (s : string) : bool :=
  match s with EmptyString => false | String _ _ => true end.

Definition isalnum (s : string) : bool := nonempty s && all_chars char_isalnum s.
Definition isnumeric (s : string) : bool := nonempty s && all_chars char_isdigit s.

Fixpoint lower (s : string) : string :=
  match s with
  | EmptyString => EmptyString
  | String c s' => String (char_lower c) (lower s')
  end.

(** [len(s)] and [" " * n] *)
Definition len (s : string) : Z := Z.of_nat (String.length s).

Fixpoint spaces (n : nat) : string :=
  match n with O => EmptyString | S n' => String " " (spaces n') end.

End Str.

(** ** Reduce and order data *)

Section Rank.
Context {K : Type} `{EqDecision K}.

Definition reduce_and_sort (data : list K) : list (K * Z) :=
  sorted_rev snd
    (items (dict_of (zip (keys (Counter data)) (values (Counter data))))).

(** Number of occurrences of [k] in [data]. *)
Definition occurrences (k : K) (data : list K) : Z :=
  len (filter (fun x => x = k) data).

(** [k1] occurs in [data] before the first occurrence of [k2]. *)
Definition first_before (data : list K) (k1 k2 : K) : Prop :=
  exists l1 l2, data = l1 ++ k1 :: l2 /\ (k1 ∉ l1) /\ (k2 ∉ l1) /\ k1 <> k2.

(** [x] stands somewhere in front of [y] in [l]. *)
Definition stands_before {A : Type} (x y : A) (l : list A) : Prop :=
  exists l1 l2 l3, l = l1 ++ x :: l2 ++ y :: l3.
End Rank.

(** The word filter.  The [str] methods and the stop words are those of the
    run; [Str] gives the methods on ASCII text. *)
Section Words.
Variables (isalnum isnumeric : string -> bool) (lower : string -> string).
Variable stop_words : list string.

Fixpoint reduce_and_filter_words (list_of_words : list string) : list string :=
  match list_of_words with
  | [] => []
  | w :: rest =>
      if (1 <? Str.len w) && isalnum w && negb (isnumeric w)
         && negb (bool_decide (lower w ∈ stop_words))
      then lower w :: reduce_and_filter_words rest
      else reduce_and_filter_words rest
  end.

Definition filter_single_word (w : string) : bool :=
  (1 <? Str.len w) && isalnum w && negb (isnumeric w)
  && negb (bool_decide (lower w ∈ stop_words)).

(** The condition of the filter, as a proposition. *)
Definition counted (w : string) : Prop :=
  1 < Str.len w /\ isalnum w = true /\ isnumeric w = false /\ (lower w ∉ stop_words).

(** [[x for x in fav_word if filter_single_word(x[1])]] *)
Fixpoint fav_word_pairs {S : Type} (fav_word : list (S * string)) : list (S * string) :=
  match fav_word with
  | [] => []
  | x :: rest =>
      if filter_single_word (snd x) then x :: fav_word_pairs rest
      else fav_word_pairs rest
  end.
End Words.

#[global] Instance counted_dec isalnum isnumeric lower stop_words w :
  Decision (counted isalnum isnumeric lower stop_words w).
Proof. unfold counted. apply _. Defined.

Section Fav.
Context {K1 K2 : Type} `{EqDecision K1}.

(** The loop of [reduce_fav_item], with its two accumulators. *)
Fixpoint fav_loop (data : list (K1 * K2 * Z)) (exist : list K1)
    (arr : list (K1 * K2 * Z)) : list (K1 * K2 * Z) :=
  match data with
  | [] => arr
  | i :: rest =>
      if (0 <? snd i) && negb (bool_decide (fst (fst i) ∈ exist))
      then fav_loop rest (exist ++ [fst (fst i)]) (arr ++ [i])
      else fav_loop rest exist arr
  end.

Definition reduce_fav_item (data : list (K1 * K2 * Z)) : list (K1 * K2 * Z) :=
  fav_loop data [] [].

(** A ranked table: counts descend. *)
Definition ranked {K : Type} (table : list (K * Z)) : Prop :=
  StronglySorted (fun a b => snd b <= snd a) table.
End Fav.

(** ** Exceptions *)

Inductive exn : Type :=
| ZeroDivisionError | TypeError | ValueError | IndexError | KeyError | OverflowError.

Inductive result (A : Type) : Type :=
| Ok (a : A)
| Raise (e : exn).

Arguments Ok {A} a.
Arguments Raise {A} e.

Definition rbind {A B : Type} (r : result A) (f : A -> result B) : result B :=
  match r with
  | Ok a => f a
  | Raise e => Raise e
  end.

(** ** Parsing and counting *)

Module Parsing.

(** A [datetime] is a number of microseconds since an epoch, a calendar day
    the number of days since it; [dateutil.parser.parse] of a calendar day is
    its midnight, and [timedelta(days=d, microseconds=u)] a duration. *)
Definition microseconds_per_day : Z := 86400000000.

Definition parse (day : Z) : Z := day * microseconds_per_day.

Definition timedelta (days microseconds : Z) : Z :=
  days * microseconds_per_day + microseconds.

(** The record the line classifier [Chatline] produces. *)
Inductive line_type : Type := Chat | Event | Other.

Record Chatline : Type := {
  kind : line_type;
  timestamp : option Z;
  sender : option string;
  is_deleted_chat : bool;
  words : list string;
  emojis : list string;
  domains : list string
}.

Record chat_counter : Type := {
  chat_count : Z;
  deleted_chat_count : Z;
  event_count : Z;
  senders : list string;
  timestamps : list Z;
  all_words : list string;
  all_domains : list string;
  all_emojis : list string;
  fav_emoji : list (string * string);
  fav_word : list (string * string)
}.

Definition empty_counter : chat_counter :=
  {| chat_count := 0; deleted_chat_count := 0; event_count := 0;
     senders := []; timestamps := []; all_words := []; all_domains := [];
     all_emojis := []; fav_emoji := []; fav_word := [] |}.

(** [start_date] and [end_date] as [main] computes them from the arguments. *)
Definition start_date (startDate : option Z) : option Z :=
  match startDate with
  | Some d => Some (parse d)
  | None => None
  end.

Definition end_date (endDate : option Z) : option Z :=
  match endDate with
  | Some d => Some (parse d + timedelta 1 (-1))
  | None => None
  end.

(** [timestamp < bound] and [timestamp >= bound]: comparing [None] with a
    [datetime] raises [TypeError]. *)
Definition datetime_lt (timestamp : option Z) (bound : Z) : result bool :=
  match timestamp with
  | Some t => Ok (t <? bound)
  | None => Raise TypeError
  end.

Definition datetime_ge (timestamp : option Z) (bound : Z) : result bool :=
  match timestamp with
  | Some t => Ok (bound <=? t)
  | None => Raise TypeError
  end.

(** The two guards at the head of the loop body: [Ok false] when one of them
    executes [continue], [Ok true] when the line goes on to be counted. *)
Definition date_filter (start_d end_d : option Z) (timestamp : option Z)
  : result bool :=
  rbind (match start_d with
         | Some s => datetime_lt timestamp s
         | None => Ok false
         end)
    (fun before =>
       if before then Ok false
       else rbind (match end_d with
                   | Some e => datetime_ge timestamp e
                   | None => Ok false
                   end)
              (fun after => if after then Ok false else Ok true)).

(** The counting part of the loop body. *)
Definition count_line (c : chat_counter) (l : Chatline) : chat_counter :=
  {| chat_count :=
       match kind l with Chat => chat_count c + 1 | _ => chat_count c end;
     event_count :=
       match kind l with Event => event_count c + 1 | _ => event_count c end;
     deleted_chat_count :=
       if is_deleted_chat l then deleted_chat_count c + 1
       else deleted_chat_count c;
     senders :=
       match sender l with
       | Some s => senders c ++ [s]
       | None => senders c
       end;
     fav_emoji :=
       match sender l with
       | Some s => fav_emoji c ++ fmap (fun i => (s, i)) (emojis l)
       | None => fav_emoji c
       end;
     fav_word :=
       match sender l with
       | Some s => fav_word c ++ fmap (fun i => (s, i)) (words l)
       | None => fav_word c
       end;
     timestamps :=
       match timestamp l with
       | Some t => timestamps c ++ [t]
       | None => timestamps c
       end;
     all_words := all_words c ++ words l;
     all_emojis := all_emojis c ++ emojis l;
     all_domains := all_domains c ++ domains l |}.

(** The loop [for line in lines] over the classified lines. *)
Fixpoint count_lines (start_d end_d : option Z) (c : chat_counter)
    (lines : list Chatline) : result chat_counter :=
  match lines with
  | [] => Ok c
  | l :: rest =>
      rbind (date_filter start_d end_d (timestamp l))
        (fun keep =>
           count_lines start_d end_d (if keep then count_line c l else c) rest)
  end.

Definition parse_and_count (startDate endDate : option Z)
    (lines : list Chatline) : result chat_counter :=
  count_lines (start_date startDate) (end_date endDate) empty_counter lines.

End Parsing.

(** ** Floats *)

Module Float.

Definition prec : Z := 53.
Definition emax : Z := 1024.

(** [float(n)] *)
Definition of_int (n : Z) : spec_float := binary_normalize prec emax n 0 false.

(** The float of the literal [m * 2 ** e]. *)
Definition literal (m e : Z) : spec_float := binary_normalize prec emax m e false.

Definition is_zero (x : spec_float) : bool :=
  match x with
  | S754_zero _ => true
  | _ => false
  end.

(** The floats that stand for a number. *)
Definition finite (x : spec_float) : Prop :=
  match x with
  | S754_finite _ _ _ | S754_zero _ => True
  | _ => False
  end.

(** The mantissas of 53 digits, those of the floats that are not subnormal. *)
Definition normal (m : positive) : Prop := 2 ^ 52 <= Z.pos m < 2 ^ 53.

(** [x / y] on floats, and [a / b] on ints. *)
Definition div (x y : spec_float) : result spec_float :=
  if is_zero y then Raise ZeroDivisionError else Ok (SFdiv prec emax x y).

Definition int_div (a b : Z) : result spec_float :=
  if b =? 0 then Raise ZeroDivisionError
  else Ok (SFdiv prec emax (of_int a) (of_int b)).

(** [x * y] on floats. *)
Definition mul (x y : spec_float) : spec_float := SFmul prec emax x y.

(** The number a finite float stands for (0 for the others). *)
Definition value (x : spec_float) : Q :=
  match x with
  | S754_finite s m e =>
      match e with
      | Z0 => inject_Z (cond_Zopp s (Zpos m))
      | Zpos p => inject_Z (cond_Zopp s (Zpos m) * 2 ^ Zpos p)
      | Zneg p => cond_Zopp s (Zpos m) # 2 ^ p
      end
  | _ => 0%Q
  end.

(** [int(x)]: the float is cut off towards zero. *)
Definition truncate (q : Q) : Z := Z.quot (Qnum q) (Zpos (Qden q)).

Definition int (x : spec_float) : result Z :=
  match x with
  | S754_nan => Raise ValueError
  | S754_infinity _ => Raise OverflowError
  | _ => Ok (truncate (value x))
  end.

(** [n > x] for an int [n] and a float [x]: the two are compared as numbers. *)
Definition int_gt (n : Z) (x : spec_float) : bool :=
  match x with
  | S754_nan => false
  | S754_infinity s => s
  | _ => negb (Qle_bool (inject_Z n) (value x))
  end.

End Float.

(** ** Visualize *)

Module Render.

(** The glyph of a heat map cell: ['==='] for a key that is absent, then
    ['░░░'], ['▒▒▒'], ['▓▓▓'] and ['███'] in ascending intensity. *)
Inductive tick : Type := NoData | Level1 | Level2 | Level3 | Level4.

(** What the report prints, line by line (colours left out). *)
Inductive line : Type :=
| Rule                                         (* "-" * 50 *)
| Title (s : string)
| Stat (label : string) (v : Z)                (* "label : v" *)
| Average (q : spec_float)                     (* "Average : q chat per member" *)
| Blank
| EmptyData                                    (* "Empty data" *)
| Bar (label : string) (cells : nat) (value : Z)   (* "label |████ value" *)
| Dashes                                       (* "---" *)
| OtherLine (noun : string) (entries total : Z)    (* "Other entries noun | total" *)
| MostBusy (day hour : string) (n : Z)
| MostSilence (day hour : string) (n : Z)
| Text (s : string)
| Legend
| CalHeader (days : list string)
| CalRow (hour : string) (ticks : list tick).

(** A computation that prints: the lines printed so far and either a value
    or the exception that ended it. *)
Definition io (A : Type) : Type := list line * result A.

#[global] Instance io_ret : MRet io := fun A a => ([], Ok a).

#[global] Instance io_bind : MBind io := fun A B f m =>
  match m with
  | (out, Ok a) => let (out', r) := f a in (out ++ out', r)
  | (out, Raise e) => (out, Raise e)
  end.

Definition print (l : line) : io unit := ([l], Ok tt).

Definition lift {A : Type} (r : result A) : io A := ([], r).

Fixpoint for_each {A : Type} (body : A -> io unit) (l : list A) : io unit :=
  match l with
  | [] => mret tt
  | x :: rest => body x ;; for_each body rest
  end.

Definition printed {A : Type} (m : io A) : list line := fst m.

Definition raised {A : Type} (m : io A) : option exn :=
  match snd m with
  | Ok _ => None
  | Raise e => Some e
  end.

(** [max(l)] of a list, and [max(l, key=key)]: the first maximal element. *)
Definition py_max (l : list Z) : result Z :=
  match l with
  | [] => Raise ValueError
  | x :: rest => Ok (max_of x rest)
  end.

Fixpoint max_by_from {A : Type} (key : A -> Z) (best : A) (l : list A) : A :=
  match l with
  | [] => best
  | x :: rest => max_by_from key (if key best <? key x then x else best) rest
  end.

Definition max_by {A : Type} (key : A -> Z) (l : list A) : result A :=
  match l with
  | [] => Raise ValueError
  | x :: rest => Ok (max_by_from key x rest)
  end.

(** [l[0]] and [l[-1]] *)
Definition first {A : Type} (l : list A) : result A :=
  match l with
  | [] => Raise IndexError
  | x :: _ => Ok x
  end.

Definition final {A : Type} (l : list A) : result A :=
  match last l with
  | Some x => Ok x
  | None => Raise IndexError
  end.

(** [printBar(value, total, label, length)]; the bar is [fill * filledLength],
    which is empty for a negative [filledLength]. *)
Definition printBar (value total : Z) (label : string) (length : Z) : io unit :=
  scale ← lift (Float.int_div total length);
  quotient ← lift (Float.div (Float.of_int value) scale);
  filledLength ← lift (Float.int quotient);
  print (Bar label (Z.to_nat filledLength) value).

Definition printBarChart (data : list (string * Z)) : io unit :=
  if len data <=? 0 then print EmptyData
  else
    total ← lift (py_max (fmap snd data));
    longest ← lift (first (sorted_rev (fun tup => Str.len (fst tup)) data));
    let max_label_length := Str.len (fst longest) in
    for_each
      (fun i =>
         let label :=
           (fst i ++ Str.spaces (Z.to_nat (max_label_length - Str.len (fst i))))%string in
         printBar (snd i) total label 50)
      data.

(** The [filledLength] of [printBar] for a scale that is not zero:
    [int(value / scale)], the quotient being the rounded quotient of the
    floats. *)
Definition filledLength (value : Z) (scale : spec_float) : Z :=
  Qfloor (Float.value (SFdiv Float.prec Float.emax (Float.of_int value) scale)).

(** The bar length in the words of the specification, on the numbers:
    the scale is [max / L] and the bar has [floor(count / scale)] cells. *)
Definition spec_scale (max L : Z) : Q := (inject_Z max / inject_Z L)%Q.

Definition spec_bar_length (count max L : Z) : Z :=
  Qfloor (inject_Z count / spec_scale max L)%Q.

Definition days : list string :=
  ["Monday"; "Tuesday"; "Wednesday"; "Thursday"; "Friday"; "Saturday"; "Sunday"]%string.

Definition str_of_nat (x : nat) : string :=
  DecimalString.NilEmpty.string_of_uint (Nat.to_uint x).

Definition hours : list string :=
  fmap (fun x => if Str.len (str_of_nat x) <? 2
                then ("0" ++ str_of_nat x)%string else str_of_nat x)
      (seq 0 24).

(** [max_val] of [printCalendar]. *)
Definition max_val (data : list (string * string * Z)) : result spec_float :=
  if len data =? 0 then Ok (Float.of_int 0)
  else
    rbind (max_by (fun k => default 0 (dict_get data k)) (keys data))
      (fun k =>
         match dict_get data k with
         | Some v => Ok (Float.of_int v)
         | None => Raise KeyError
         end).

(** The literals [0.25], [0.50] and [0.75]. *)
Definition quarter : spec_float := Float.literal 1 (-2).
Definition half : spec_float := Float.literal 1 (-1).
Definition three_quarters : spec_float := Float.literal 3 (-2).

Definition ticks (max_val : spec_float) : list spec_float :=
  [Float.of_int 0; Float.mul quarter max_val; Float.mul half max_val;
   Float.mul three_quarters max_val].

(** The glyph of the cell [(day, hour)]. *)
Definition cell (data : list (string * string * Z)) (ticks : list spec_float)
    (day hour : string) : tick :=
  match dict_get data (day, hour) with
  | Some count =>
      if Float.int_gt count (nth 3 ticks S754_nan) then Level4
      else if Float.int_gt count (nth 2 ticks S754_nan) then Level3
      else if Float.int_gt count (nth 1 ticks S754_nan) then Level2
      else Level1
  | None => NoData
  end.

Definition printCalendar (data : list (string * string * Z)) : io unit :=
  max_val ← lift (max_val data);
  let ticks := ticks max_val in
  print (CalHeader (fmap (fun day => substring 0 3 day) days));;
  for_each
    (fun hour => print (CalRow hour (fmap (fun day => cell data ticks day hour) days)))
    hours.

End Render.


(** ** The report *)

Section Report.
Import Render.

(** [emoji.demojize] *)
Variable demojize : string -> string.

(** The number of the lines ["Other ..."] among the lines printed. *)
Definition is_other (l : line) : bool :=
  match l with
  | OtherLine _ _ _ => true
  | _ => false
  end.

Definition other_lines (out : list line) : list line := List.filter is_other out.

Definition section_senders (size : Z) (data : list (string * Z)) : io unit :=
  print Rule;;
  print (Title "Chat Count by Sender");;
  print Rule;;
  print (Stat "Active Sender" (len data));;
  print (Stat "Total Chat" (sum (fmap snd data)));;
  average ← lift (if len data =? 0 then Ok (Float.of_int 0)
                  else Float.int_div (sum (fmap snd data)) (len data));
  print (Average average);;
  print Blank;;
  printBarChart (slice_to size data);;
  (if size <? len data
   then print Dashes;;
        print (OtherLine "member" (len (slice_from size data))
                 (sum (fmap snd (slice_from size data))))
   else mret tt);;
  print Blank;;
  print Blank.

Definition section_domains (size : Z) (data : list (string * Z)) : io unit :=
  print Rule;;
  print (Title "Mentioned Domain (Shared Link/URL)");;
  print Rule;;
  print (Stat "Domain Count" (len data));;
  print (Stat "Mention Count" (sum (fmap snd data)));;
  print Blank;;
  printBarChart (slice_to size data);;
  (if size <? len data
   then print Dashes;;
        print (OtherLine "domain" (len (slice_from size data))
                 (sum (fmap snd (slice_from size data))))
   else mret tt);;
  print Blank;;
  print Blank.

Definition section_emojis (size : Z) (emojis : list (string * Z)) : io unit :=
  let data :=
    fmap (fun x => (fst x ++ " (" ++ demojize (fst x) ++ ") ", snd x)%string) emojis in
  print Rule;;
  print (Title "Used Emoji");;
  print Rule;;
  print (Stat "Unique Emoji" (len data));;
  print (Stat "Total Count" (sum (fmap snd data)));;
  print Blank;;
  printBarChart (slice_to size data);;
  (if size <? len data
   then print Dashes;;
        print (OtherLine "emoji" (len (slice_from size data))
                 (sum (fmap snd (slice_from size data))))
   else mret tt);;
  print Blank;;
  print Blank.

Definition section_fav_emoji (size : Z) (fav_emoji : list (string * string * Z))
  : io unit :=
  let data :=
    fmap (fun x => (fst (fst x) ++ " | " ++ snd (fst x) ++ " | ("
                   ++ demojize (snd (fst x)) ++ ")", snd x)%string) fav_emoji in
  print Rule;;
  print (Title "Favorite Emoji by Member");;
  print Rule;;
  print Blank;;
  printBarChart (slice_to size data);;
  print Blank;;
  print Blank.

Definition section_words (size : Z) (data : list (string * Z)) : io unit :=
  print Rule;;
  print (Title "Used Word");;
  print Rule;;
  print (Stat "Unique Word" (len data));;
  print (Stat "Total Count" (sum (fmap snd data)));;
  print Blank;;
  printBarChart (slice_to size data);;
  (if size <? len data
   then print Dashes;;
        print (OtherLine "word" (len (slice_from size data))
                 (sum (fmap snd (slice_from size data))))
   else mret tt);;
  print Blank;;
  print Blank.

Definition section_fav_word (size : Z) (fav_word : list (string * string * Z))
  : io unit :=
  let data :=
    fmap (fun x => (fst (fst x) ++ " | " ++ snd (fst x) ++ " | ", snd x)%string)
        fav_word in
  print Rule;;
  print (Title "Favorite Word by Member");;
  print Rule;;
  print Blank;;
  printBarChart (slice_to size data);;
  print Blank;;
  print Blank.

Definition section_heatmap (data : list (string * string * Z)) : io unit :=
  print Rule;;
  print (Title "Chat Activity Heatmap");;
  print Rule;;
  (if 0 <? len data
   then busiest ← lift (first data);
        print (MostBusy (fst (fst busiest)) (snd (fst busiest) ++ ":00") (snd busiest));;
        calmest ← lift (final data);
        print (MostSilence (fst (fst calmest)) (snd (fst calmest) ++ ":00") (snd calmest))
   else mret tt);;
  print Blank;;
  print Dashes;;
  print (Text "X: Days");;
  print (Text "Y: Hours");;
  print Dashes;;
  print Legend;;
  print Blank;;
  printCalendar (dict_of data).

(** The reduced tables of [chat_counter] that the report reads. *)
Record tables : Type := {
  t_senders : list (string * Z);
  t_words : list (string * Z);
  t_domains : list (string * Z);
  t_emojis : list (string * Z);
  t_timestamps : list (string * string * Z);
  t_fav_emoji : list (string * string * Z);
  t_fav_word : list (string * string * Z)
}.

(** [args.mode is None or m in args.mode] *)
Definition selected (mode : option (list string)) (m : string) : bool :=
  match mode with
  | None => true
  | Some modes => bool_decide (m ∈ modes)
  end.

Definition report (mode : option (list string)) (size : Z) (t : tables) : io unit :=
  (if selected mode "chat" then section_senders size (t_senders t) else mret tt);;
  (if selected mode "url" then section_domains size (t_domains t) else mret tt);;
  (if selected mode "emoji"
   then section_emojis size (t_emojis t);; section_fav_emoji size (t_fav_emoji t)
   else mret tt);;
  (if selected mode "word"
   then section_words size (t_words t);; section_fav_word size (t_fav_word t)
   else mret tt);;
  (if selected mode "activity" then section_heatmap (t_timestamps t) else mret tt).
End Report.

(** The reductions of the word and favourite tables in [main]. *)
Section Reduce.
Variables (isalnum isnumeric : string -> bool) (lower : string -> string).
Variable stop_words : list string.

Definition words_table (words : list string) : list (string * Z) :=
  reduce_and_sort (reduce_and_filter_words isalnum isnumeric lower stop_words words).

Definition fav_emoji_table (fav_emoji : list (string * string))
  : list (string * string * Z) :=
  reduce_fav_item (reduce_and_sort fav_emoji).

Definition fav_word_ranking (fav_word : list (string * string))
  : list (string * string * Z) :=
  reduce_and_sort (fav_word_pairs isalnum isnumeric lower stop_words fav_word).

Definition fav_word_table (fav_word : list (string * string))
  : list (string * string * Z) :=
  reduce_fav_item (fav_word_ranking fav_word).
End Reduce.

(** ** Further parts of [main] *)

(** Loading the stop words.  [read path] gives the lines of the file at
    [path], or nothing when the file cannot be opened; [strip] is
    [str.strip].  The run either goes on with a list of stop words or prints
    that the file named is not found and exits. *)
Module StopWords.

Inductive outcome : Type :=
| Loaded (stop_words : list string)
| NotFound (name : string).

Section Load.
Variable read : string -> option (list string).
Variable strip : string -> string.

(** A string is true when it is not empty. *)
Definition truthy (s : option string) : option string :=
  match s with
  | Some EmptyString | None => None
  | Some name => Some name
  end.

Definition load (file : string) (stopword customstopword : option string) : outcome :=
  match
    match truthy stopword with
    | Some name =>
        match read ("stop-words/" ++ name ++ ".txt")%string with
        | Some lines => Loaded (strip <$> lines)
        | None => NotFound name
        end
    | None => Loaded []
    end
  with
  | NotFound name => NotFound name
  | Loaded stop_words =>
      match truthy customstopword with
      | Some path =>
          match read path with
          | Some lines => Loaded (strip <$> lines)
          | None => NotFound file
          end
      | None => Loaded stop_words
      end
  end.
End Load.

End StopWords.

(** The lines the two guards of the loop let through: a line without a
    timestamp, and a line whose timestamp is within the bounds. *)
Definition kept (start_d end_d : option Z) (l : Parsing.Chatline) : bool :=
  match Parsing.timestamp l with
  | Some t =>
      match start_d with Some s => s <=? t | None => true end
      && match end_d with Some e => t <? e | None => true end
  | None => true
  end.

(** The calendar day of a [datetime]. *)
Definition day_of (t : Z) : Z := t / Parsing.microseconds_per_day.

(** The multiset a table stands for: every key as often as its count. *)
Definition expand {K : Type} (table : list (K * Z)) : list K :=
  table ≫= fun kc => replicate (Z.to_nat (snd kc)) (fst kc).

(** The reduction of the counter to the tables of the report;
    [weekday] and [hour] are [strftime('%A')] and [strftime('%H')]. *)
Section ReduceAll.
Variables (isalnum isnumeric : string -> bool) (lower : string -> string).
Variable stop_words : list string.
Variables (weekday hour : Z -> string).

Definition reduce (c : Parsing.chat_counter) : tables :=
  {| t_senders := reduce_and_sort (Parsing.senders c);
     t_words := reduce_and_sort
                  (reduce_and_filter_words isalnum isnumeric lower stop_words
                     (Parsing.all_words c));
     t_domains := reduce_and_sort (Parsing.all_domains c);
     t_emojis := reduce_and_sort (Parsing.all_emojis c);
     t_timestamps := reduce_and_sort
                       (fmap (fun x => (weekday x, hour x)) (Parsing.timestamps c));
     t_fav_emoji := reduce_fav_item (reduce_and_sort (Parsing.fav_emoji c));
     t_fav_word := reduce_fav_item
                     (reduce_and_sort
                        (fav_word_pairs isalnum isnumeric lower stop_words
                           (Parsing.fav_word c))) |}.
End ReduceAll.

(** A counter whose lists are shorter than [2 ** 53]. *)
Definition small (c : Parsing.chat_counter) : Prop :=
  len (Parsing.senders c) < 2 ^ 53
  /\ len (Parsing.all_words c) < 2 ^ 53
  /\ len (Parsing.all_domains c) < 2 ^ 53
  /\ len (Parsing.all_emojis c) < 2 ^ 53
  /\ len (Parsing.timestamps c) < 2 ^ 53
  /\ len (Parsing.fav_emoji c) < 2 ^ 53
  /\ len (Parsing.fav_word c) < 2 ^ 53.

#[global] Instance line_type_eq_dec : EqDecision Parsing.line_type.
Proof. solve_decision. Defined.

(** What the lists of a counter always satisfy: the words and emojis of the
    pairs are among the words and emojis counted, in their order, and the
    senders of the pairs are among the senders counted. *)
Definition consistent (c : Parsing.chat_counter) : Prop :=
  (snd <$> Parsing.fav_word c) `sublist_of` Parsing.all_words c
  /\ (snd <$> Parsing.fav_emoji c) `sublist_of` Parsing.all_emojis c
  /\ (forall p, p ∈ Parsing.fav_word c -> p.1 ∈ Parsing.senders c)
  /\ (forall p, p ∈ Parsing.fav_emoji c -> p.1 ∈ Parsing.senders c).

(** A table whose counts are positive and below [2 ** 53]. *)
Definition in_range {K : Type} (table : list (K * Z)) : Prop :=
  forall x, x ∈ table -> 0 < x.2 < 2 ^ 53.

(** * Properties *)

(** ** Dictionaries *)

Section DictFacts.
Context {K V : Type} `{EqDecision K}.
Implicit Types (d : list (K * V)) (k : K) (v : V).

Lemma dict_get_None d k : dict_get d k = None <-> k ∉ keys d.
Proof.
  unfold keys. induction d as [|[k' v'] d IH]; simpl.
  - split; [intros _; apply not_elem_of_nil | done].
  - rewrite not_elem_of_cons. destruct (decide (k = k')); [|by rewrite IH; tauto].
    split; [done | tauto].
Qed.

Lemma dict_get_elem_of d k v : dict_get d k = Some v -> (k, v) ∈ d.
Proof.
  induction d as [|[k' v'] d IH]; simpl; [done|].
  destruct (decide (k = k')) as [->|]; intros Hg.
  - injection Hg as ->. apply list_elem_of_here.
  - apply list_elem_of_further. auto.
Qed.

Lemma elem_of_dict_get d k v : NoDup (keys d) -> (k, v) ∈ d -> dict_get d k = Some v.
Proof.
  unfold keys. induction d as [|[k' v'] d IH]; simpl; intros Hnd Hin.
  - by apply elem_of_nil in Hin.
  - apply NoDup_cons in Hnd as [Hk' Hnd]. apply elem_of_cons in Hin as [Heq|Hin].
    + injection Heq as -> ->. by rewrite decide_True.
    + destruct (decide (k = k')) as [->|]; [|auto].
      exfalso. apply Hk'. apply list_elem_of_fmap. by exists (k', v).
Qed.

Lemma dict_set_fresh d k v : dict_get d k = None -> dict_set d k v = d ++ [(k, v)].
Proof.
  induction d as [|[k' v'] d IH]; simpl; [done|].
  destruct (decide (k = k')); [done|]. intros Hg. by rewrite IH.
Qed.

Lemma keys_dict_set_bound d k v : is_Some (dict_get d k) -> keys (dict_set d k v) = keys d.
Proof.
  unfold keys. induction d as [|[k' v'] d IH]; simpl; [by intros [? ?]|].
  destruct (decide (k = k')); [done|]. intros Hg. csimpl. f_equal. auto.
Qed.

Lemma dict_get_set_eq d k v : dict_get (dict_set d k v) k = Some v.
Proof.
  induction d as [|[k' v'] d IH]; simpl.
  - by rewrite decide_True.
  - destruct (decide (k = k')) as [->|Hne]; simpl.
    + by rewrite decide_True.
    + by rewrite decide_False.
Qed.

Lemma dict_get_set_ne d k k' v : k <> k' -> dict_get (dict_set d k v) k' = dict_get d k'.
Proof.
  intros Hne. induction d as [|[k0 v0] d IH]; simpl.
  - by rewrite decide_False.
  - destruct (decide (k = k0)) as [->|]; simpl.
    + by rewrite !decide_False.
    + by rewrite IH.
Qed.

Lemma keys_dict_set_NoDup d k v : NoDup (keys d) -> NoDup (keys (dict_set d k v)).
Proof.
  intros Hnd. destruct (dict_get d k) as [v0|] eqn:Hg.
  - by rewrite keys_dict_set_bound.
  - rewrite dict_set_fresh by done. unfold keys in *. rewrite fmap_app. simpl.
    apply NoDup_app. split_and!; [done| |apply NoDup_singleton].
    intros x Hx ->%list_elem_of_singleton. by apply dict_get_None in Hg.
Qed.

(** Building a dictionary from the items of one gives it back. *)
Lemma dict_of_items d : NoDup (keys d) -> dict_of (zip (keys d) (values d)) = d.
Proof.
  unfold keys, values, dict_of. rewrite zip_fst_snd.
  enough (Hgen : forall acc, NoDup ((acc ++ d).*1) ->
            fold_left (fun d0 kv => dict_set d0 kv.1 kv.2) d acc = acc ++ d).
  { intros Hnd. by apply (Hgen []). }
  induction d as [|[k v] d IH]; intros acc Hnd; simpl.
  - by rewrite app_nil_r.
  - rewrite dict_set_fresh.
    + rewrite IH; rewrite <- app_assoc; done.
    + apply dict_get_None. unfold keys. rewrite fmap_app in Hnd.
      apply NoDup_app in Hnd as (_ & Hdisj & _). intros Hin.
      apply (Hdisj k Hin). simpl. apply list_elem_of_here.
Qed.
End DictFacts.

(** ** Sums *)

Lemma fold_add_shift (l : list Z) (a : Z) : fold_left Z.add l a = a + sum l.
Proof.
  unfold sum. revert a. induction l as [|x l IH]; intros a; [simpl; lia|].
  change (fold_left Z.add l (a + x) = a + fold_left Z.add l (0 + x)).
  rewrite (IH (a + x)), (IH (0 + x)). lia.
Qed.

Lemma sum_cons (x : Z) (l : list Z) : sum (x :: l) = x + sum l.
Proof. unfold sum at 1. simpl. apply fold_add_shift. Qed.

Lemma sum_app (l1 l2 : list Z) : sum (l1 ++ l2) = sum l1 + sum l2.
Proof.
  induction l1 as [|x l1 IH]; simpl; [done|]. rewrite !sum_cons, IH. lia.
Qed.

Lemma sum_Permutation (l1 l2 : list Z) : l1 ≡ₚ l2 -> sum l1 = sum l2.
Proof.
  induction 1 as [|x l1 l2 _ IH|x y l|l1 l2 l3 _ IH1 _ IH2];
    rewrite ?sum_cons; lia.
Qed.

Lemma sum_values_set {K : Type} `{EqDecision K} (d : list (K * Z)) (k : K) (v : Z) :
  sum (values (dict_set d k v)) = sum (values d) - default 0 (dict_get d k) + v.
Proof.
  unfold values. induction d as [|[k' v'] d IH]; simpl.
  - rewrite sum_cons. unfold sum. simpl. lia.
  - destruct (decide (k = k')); csimpl; rewrite !sum_cons; [lia|]. rewrite IH. lia.
Qed.

(** ** Counter *)

Section CounterFacts.
Context {K : Type} `{EqDecision K}.
Implicit Types (data : list K) (k : K).

Lemma Counter_snoc data k :
  Counter (data ++ [k]) =
  dict_set (Counter data) k (default 0 (dict_get (Counter data) k) + 1).
Proof. unfold Counter. by rewrite fold_left_app. Qed.

Lemma occurrences_snoc data k x :
  occurrences k (data ++ [x]) = occurrences k data + (if decide (x = k) then 1 else 0).
Proof.
  unfold occurrences, len. rewrite filter_app, length_app, filter_cons, filter_nil.
  destruct (decide (x = k)); simpl; lia.
Qed.

Lemma occurrences_nonneg data k : 0 <= occurrences k data.
Proof. unfold occurrences, len. lia. Qed.

Lemma occurrences_pos data k : k ∈ data -> 0 < occurrences k data.
Proof.
  intros Hin. unfold occurrences, len.
  assert (Hk : k ∈ filter (fun x => x = k) data) by by apply list_elem_of_filter.
  destruct (filter (fun x => x = k) data); [by apply elem_of_nil in Hk|]. simpl. lia.
Qed.

Lemma Counter_keys data k : k ∈ keys (Counter data) <-> k ∈ data.
Proof.
  induction data as [|x data IH] using rev_ind.
  - unfold keys. simpl. by rewrite !elem_of_nil.
  - rewrite Counter_snoc, elem_of_app, list_elem_of_singleton, <- IH.
    destruct (dict_get (Counter data) x) as [n|] eqn:Hg.
    + rewrite keys_dict_set_bound by (by rewrite Hg).
      split; [tauto|]. intros [?| ->]; [done|].
      apply dict_get_elem_of in Hg. unfold keys. apply list_elem_of_fmap.
      by exists (x, n).
    + rewrite dict_set_fresh by done. unfold keys. rewrite fmap_app, elem_of_app.
      simpl. by rewrite list_elem_of_singleton.
Qed.

Lemma Counter_NoDup data : NoDup (keys (Counter data)).
Proof.
  induction data as [|x data IH] using rev_ind.
  - unfold keys. simpl. apply NoDup_nil. done.
  - rewrite Counter_snoc. by apply keys_dict_set_NoDup.
Qed.

Lemma Counter_get data k : default 0 (dict_get (Counter data) k) = occurrences k data.
Proof.
  induction data as [|x data IH] using rev_ind; [done|].
  rewrite Counter_snoc, occurrences_snoc. destruct (decide (x = k)) as [->|Hne].
  - rewrite dict_get_set_eq. simpl. by rewrite IH.
  - rewrite dict_get_set_ne by done. lia.
Qed.

(** The items of a counter: every key of [data], with its number of
    occurrences. *)
Lemma Counter_items data k (c : Z) :
  (k, c) ∈ Counter data <-> k ∈ data /\ c = occurrences k data.
Proof.
  split.
  - intros Hin. assert (Hk : k ∈ data).
    { apply Counter_keys. unfold keys. apply list_elem_of_fmap. by exists (k, c). }
    split; [done|]. apply elem_of_dict_get in Hin; [|apply Counter_NoDup].
    rewrite <- Counter_get, Hin. done.
  - intros [Hk ->]. apply dict_get_elem_of. apply Counter_keys in Hk.
    destruct (dict_get (Counter data) k) as [n|] eqn:Hg.
    + by rewrite <- Counter_get, Hg.
    + by apply dict_get_None in Hg.
Qed.

Lemma Counter_sum data : sum (values (Counter data)) = len data.
Proof.
  induction data as [|x data IH] using rev_ind; [done|].
  rewrite Counter_snoc, sum_values_set, IH. unfold len. rewrite length_app. simpl. lia.
Qed.

(** The keys of a counter stand in the order of their first occurrence. *)
Lemma Counter_order data k1 k2 :
  stands_before k1 k2 (keys (Counter data)) -> first_before data k1 k2.
Proof.
  induction data as [|x data IH] using rev_ind.
  - intros (l1 & l2 & l3 & Heq). unfold keys in Heq. simpl in Heq.
    by destruct l1.
  - rewrite Counter_snoc. intros Hsb.
    assert (Hold : first_before data k1 k2 -> first_before (data ++ [x]) k1 k2).
    { intros (l1 & l2 & -> & ? & ? & ?). exists l1, (l2 ++ [x]).
      by rewrite <- app_assoc. }
    destruct (dict_get (Counter data) x) as [n|] eqn:Hg.
    { rewrite keys_dict_set_bound in Hsb by (by rewrite Hg). auto. }
    rewrite dict_set_fresh in Hsb by done. unfold keys in Hsb.
    rewrite fmap_app in Hsb. simpl in Hsb.
    destruct Hsb as (l1 & l2 & l3 & Heq).
    destruct l3 as [|y l3 _] using rev_ind.
    + replace (l1 ++ k1 :: l2 ++ [k2]) with ((l1 ++ k1 :: l2) ++ [k2]) in Heq
        by (by rewrite <- app_assoc).
      apply app_inj_tail in Heq as [Heq <-].
      apply dict_get_None in Hg. rewrite Counter_keys in Hg.
      assert (Hk1 : k1 ∈ data).
      { apply Counter_keys. fold (keys (Counter data)) in Heq. rewrite Heq.
        apply elem_of_app. right. apply list_elem_of_here. }
      destruct (list_elem_of_split_l _ _ Hk1) as (d1 & d2 & -> & Hd1).
      exists d1, (d2 ++ [x]). rewrite <- app_assoc. split_and!; [done|done| |].
      * intros Hx. apply Hg. apply elem_of_app. by left.
      * intros ->. done.
    + replace (l1 ++ k1 :: l2 ++ k2 :: l3 ++ [y])
        with ((l1 ++ k1 :: l2 ++ k2 :: l3) ++ [y]) in Heq
        by (rewrite <- !app_assoc; simpl; by rewrite <- !app_assoc).
      apply app_inj_tail in Heq as [Heq _]. apply Hold, IH. by exists l1, l2, l3.
Qed.
End CounterFacts.

(** ** The stable descending sort *)

Section SortedFacts.
Context {A : Type} (key : A -> Z).
Implicit Types (x y : A) (l : list A).

Lemma insert_desc_Permutation x l : insert_desc key x l ≡ₚ x :: l.
Proof.
  induction l as [|y l IH]; simpl; [done|].
  destruct (key x <? key y); [|done]. rewrite IH. apply Permutation_swap.
Qed.

Lemma sorted_rev_Permutation l : sorted_rev key l ≡ₚ l.
Proof.
  induction l as [|x l IH]; simpl; [done|].
  by rewrite insert_desc_Permutation, IH.
Qed.

Lemma insert_desc_sorted x l :
  StronglySorted (fun a b => key b <= key a) l ->
  StronglySorted (fun a b => key b <= key a) (insert_desc key x l).
Proof.
  induction 1 as [|y l Hs IH Hy]; simpl.
  - repeat constructor.
  - destruct (key x <? key y) eqn:Hlt.
    + constructor; [done|]. apply Z.ltb_lt in Hlt.
      rewrite Forall_forall in Hy |- *. intros z Hz.
      rewrite insert_desc_Permutation in Hz.
      apply elem_of_cons in Hz as [->|Hz]; [lia|]. by apply Hy.
    + apply Z.ltb_ge in Hlt. constructor; [by constructor|].
      constructor; [done|]. rewrite Forall_forall in Hy |- *. intros z Hz.
      specialize (Hy z Hz). simpl in Hy. lia.
Qed.

Lemma sorted_rev_sorted l :
  StronglySorted (fun a b => key b <= key a) (sorted_rev key l).
Proof.
  induction l as [|x l IH]; simpl; [constructor|]. by apply insert_desc_sorted.
Qed.

(** Stability: the elements of one key keep their order. *)
Lemma insert_desc_filter (v : Z) x l :
  filter (fun a => key a = v) (insert_desc key x l)
  = filter (fun a => key a = v) (x :: l).
Proof.
  induction l as [|y l IH]; simpl; [done|].
  destruct (key x <? key y) eqn:Hlt; [|done]. apply Z.ltb_lt in Hlt.
  rewrite (filter_cons _ y), IH, !filter_cons.
  destruct (decide (key y = v)), (decide (key x = v)); try done. lia.
Qed.

Lemma sorted_rev_stable (v : Z) l :
  filter (fun a => key a = v) (sorted_rev key l) = filter (fun a => key a = v) l.
Proof.
  induction l as [|x l IH]; simpl; [done|].
  by rewrite insert_desc_filter, !filter_cons, IH.
Qed.
End SortedFacts.

Section OrderFacts.
Context {A : Type}.
Implicit Types (x y : A) (l : list A).

Lemma stands_before_sublist x y l : stands_before x y l <-> [x; y] `sublist_of` l.
Proof.
  rewrite sublist_cons_l. split.
  - intros (l1 & l2 & l3 & ->). exists l1, (l2 ++ y :: l3). split; [done|].
    apply sublist_inserts_l, sublist_skip, sublist_nil_l.
  - intros (l1 & k & -> & Hy). apply sublist_cons_l in Hy as (l2 & l3 & -> & _).
    by exists l1, l2, l3.
Qed.

Lemma filter_sublist_mono (P : A -> Prop) `{!forall a, Decision (P a)} l1 l2 :
  l1 `sublist_of` l2 -> filter P l1 `sublist_of` filter P l2.
Proof.
  induction 1 as [|a l1 l2 _ IH|a l1 l2 _ IH]; [done| |]; rewrite !filter_cons.
  - destruct (decide (P a)); [by constructor | done].
  - destruct (decide (P a)); [by constructor | done].
Qed.

(** A stable sort keeps two elements of one key in their order. *)
Lemma sorted_rev_keeps_order (key : A -> Z) x y l :
  key x = key y -> stands_before x y (sorted_rev key l) -> stands_before x y l.
Proof.
  rewrite !stands_before_sublist. intros Hxy Hsub.
  apply (filter_sublist_mono (fun a => key a = key x)) in Hsub.
  rewrite sorted_rev_stable, !filter_cons, filter_nil in Hsub.
  rewrite decide_True in Hsub by done. rewrite decide_True in Hsub by done.
  etrans; [exact Hsub|]. apply sublist_filter.
Qed.
End OrderFacts.

(** ** Ranking *)

Section RankFacts.
Context {K : Type} `{EqDecision K}.
Implicit Types (data : list K).

Lemma reduce_and_sort_unfold data :
  reduce_and_sort data = sorted_rev snd (Counter data).
Proof.
  unfold reduce_and_sort, items. by rewrite dict_of_items by apply Counter_NoDup.
Qed.

Lemma reduce_and_sort_Permutation data : reduce_and_sort data ≡ₚ Counter data.
Proof. rewrite reduce_and_sort_unfold. apply sorted_rev_Permutation. Qed.

Lemma reduce_and_sort_elem_of data k (c : Z) :
  (k, c) ∈ reduce_and_sort data <-> k ∈ data /\ c = occurrences k data.
Proof. rewrite reduce_and_sort_Permutation. apply Counter_items. Qed.

Lemma reduce_and_sort_NoDup data : NoDup (keys (reduce_and_sort data)).
Proof.
  unfold keys. rewrite reduce_and_sort_Permutation. apply Counter_NoDup.
Qed.

Lemma reduce_and_sort_positive data :
  Forall (fun x => 0 < snd x) (reduce_and_sort data).
Proof.
  apply Forall_forall. intros [k c] Hin.
  apply reduce_and_sort_elem_of in Hin as [Hk ->]. by apply occurrences_pos.
Qed.

Lemma reduce_and_sort_ranked data : ranked (reduce_and_sort data).
Proof. rewrite reduce_and_sort_unfold. apply sorted_rev_sorted. Qed.

Lemma reduce_and_sort_ties data k1 k2 (c : Z) :
  stands_before (k1, c) (k2, c) (reduce_and_sort data) -> first_before data k1 k2.
Proof.
  rewrite reduce_and_sort_unfold. intros Hsb.
  apply sorted_rev_keeps_order in Hsb; [|done].
  apply Counter_order. apply stands_before_sublist.
  apply stands_before_sublist in Hsb.
  change [k1; k2] with (fst <$> [(k1, c); (k2, c)]). unfold keys.
  by apply fmap_sublist.
Qed.

Lemma reduce_and_sort_baba (a b : K) :
  a <> b -> reduce_and_sort [b; a; b; a] = [(b, 2); (a, 2)].
Proof.
  intros Hab. unfold reduce_and_sort, Counter, dict_of, keys, values, items. simpl.
  repeat (rewrite ?decide_True by done; rewrite ?decide_False by done; simpl).
  done.
Qed.
End RankFacts.

(** C1.  [reduce_and_sort] returns the pairs (key, number of occurrences) of
    the keys of its input, each key once, with the counts descending; two
    keys with the same count stand in the order of their first occurrence in
    the input.  In particular the ranking of [b, a, b, a] is
    [(b, 2), (a, 2)]. *)
Theorem rank_sorted_by_count_then_arrival {K : Type} `{EqDecision K}
    (data : list K) :
  NoDup (keys (reduce_and_sort data))
  /\ (forall k c, (k, c) ∈ reduce_and_sort data <-> k ∈ data /\ c = occurrences k data)
  /\ ranked (reduce_and_sort data)
  /\ (forall k1 k2 c,
        stands_before (k1, c) (k2, c) (reduce_and_sort data) ->
        first_before data k1 k2)
  /\ (forall a b : K, a <> b -> reduce_and_sort [b; a; b; a] = [(b, 2); (a, 2)]).
Proof.
  split_and!.
  - apply reduce_and_sort_NoDup.
  - apply reduce_and_sort_elem_of.
  - apply reduce_and_sort_ranked.
  - apply reduce_and_sort_ties.
  - apply reduce_and_sort_baba.
Qed.

Lemma rank_sorted_by_count_then_arrival_witness :
  reduce_and_sort ["b"; "a"; "b"; "a"]%string = [("b"%string, 2); ("a"%string, 2)]
  /\ first_before ["b"; "a"; "b"; "a"]%string "b"%string "a"%string.
Proof.
  pose proof (rank_sorted_by_count_then_arrival ["b"; "a"; "b"; "a"]%string)
    as (_ & _ & _ & Hties & Hbaba).
  split.
  - apply Hbaba. discriminate.
  - apply (Hties _ _ 2). exists [], [], []. reflexivity.
Defined.

(** C2.  The counts of a ranking add up to the number of elements ranked. *)
Theorem rank_counts_sum_to_size {K : Type} `{EqDecision K} (data : list K) :
  sum (snd <$> reduce_and_sort data) = len data.
Proof.
  rewrite <- Counter_sum. apply sum_Permutation. unfold values.
  by rewrite reduce_and_sort_Permutation.
Qed.

(** ** Favourites *)

Section FavFacts.
Context {K1 K2 : Type} `{EqDecision K1}.
Implicit Types (data arr : list (K1 * K2 * Z)) (exist : list K1) (e i x : K1 * K2 * Z).

Lemma fav_loop_arr data exist arr :
  fav_loop data exist arr = arr ++ fav_loop data exist [].
Proof.
  revert exist arr. induction data as [|i rest IH]; intros exist arr; simpl.
  - by rewrite app_nil_r.
  - destruct ((0 <? i.2) && negb (bool_decide (i.1.1 ∈ exist))); [|done].
    rewrite (IH _ (arr ++ [i])), (IH _ [i]). by rewrite <- app_assoc.
Qed.

(** One turn of the loop, the result seen as what is yet to be emitted. *)
Lemma fav_loop_cons i rest exist :
  fav_loop (i :: rest) exist [] =
  if (0 <? i.2) && negb (bool_decide (i.1.1 ∈ exist))
  then i :: fav_loop rest (exist ++ [i.1.1]) []
  else fav_loop rest exist [].
Proof.
  simpl. destruct ((0 <? i.2) && negb (bool_decide (i.1.1 ∈ exist))); [|done].
  by rewrite fav_loop_arr.
Qed.

Lemma fav_guard_true i exist :
  (0 <? i.2) && negb (bool_decide (i.1.1 ∈ exist)) = true <-> 0 < i.2 /\ i.1.1 ∉ exist.
Proof.
  rewrite andb_true_iff, negb_true_iff, Z.ltb_lt, bool_decide_eq_false. done.
Qed.

Lemma fav_loop_sublist data exist : fav_loop data exist [] `sublist_of` data.
Proof.
  revert exist. induction data as [|i rest IH]; intros exist; [done|].
  rewrite fav_loop_cons.
  destruct ((0 <? i.2) && negb (bool_decide (i.1.1 ∈ exist)));
    [apply sublist_skip | apply sublist_cons]; apply IH.
Qed.

Lemma fav_loop_emitted data exist e :
  e ∈ fav_loop data exist [] -> 0 < e.2 /\ e.1.1 ∉ exist.
Proof.
  revert exist. induction data as [|i rest IH]; intros exist.
  - simpl. by intros ?%elem_of_nil.
  - rewrite fav_loop_cons.
    destruct ((0 <? i.2) && negb (bool_decide (i.1.1 ∈ exist))) eqn:Hg; [|apply IH].
    apply fav_guard_true in Hg. intros [->|Hin]%elem_of_cons; [done|].
    apply IH in Hin as [? Hnot]. split; [done|].
    intros ?. apply Hnot, elem_of_app. by left.
Qed.

Lemma fav_loop_NoDup data exist : NoDup ((fun e => e.1.1) <$> fav_loop data exist []).
Proof.
  revert exist. induction data as [|i rest IH]; intros exist.
  - simpl. by apply NoDup_nil.
  - rewrite fav_loop_cons.
    destruct ((0 <? i.2) && negb (bool_decide (i.1.1 ∈ exist))); [|apply IH].
    csimpl. apply NoDup_cons. split; [|apply IH].
    intros (e & Heq & Hin)%list_elem_of_fmap.
    apply fav_loop_emitted in Hin as [_ Hnot]. apply Hnot, elem_of_app. right.
    rewrite Heq. apply list_elem_of_here.
Qed.

(** An emitted pair is the first pair of its first key that has a positive
    count. *)
Lemma fav_loop_first data exist e :
  e ∈ fav_loop data exist [] ->
  exists l1 l2, data = l1 ++ e :: l2
                /\ forall x, x ∈ l1 -> x.1.1 = e.1.1 -> x.2 <= 0.
Proof.
  revert exist. induction data as [|i rest IH]; intros exist.
  - simpl. by intros ?%elem_of_nil.
  - rewrite fav_loop_cons.
    destruct ((0 <? i.2) && negb (bool_decide (i.1.1 ∈ exist))) eqn:Hg.
    + intros [->|Hin]%elem_of_cons.
      * exists [], rest. split; [done|]. by intros x ?%elem_of_nil.
      * pose proof (fav_loop_emitted _ _ _ Hin) as [_ Hnot].
        apply IH in Hin as (l1 & l2 & -> & Hfirst). exists (i :: l1), l2.
        split; [done|]. intros x [->|Hx]%elem_of_cons Hk; [|by apply Hfirst].
        exfalso. apply Hnot, elem_of_app. right. rewrite Hk. apply list_elem_of_here.
    + intros Hin. pose proof (fav_loop_emitted _ _ _ Hin) as [_ Hnot].
      apply IH in Hin as (l1 & l2 & -> & Hfirst). exists (i :: l1), l2.
      split; [done|]. intros x [->|Hx]%elem_of_cons Hk; [|by apply Hfirst].
      destruct (Z_lt_le_dec 0 i.2) as [Hpos|]; [|done].
      exfalso. apply not_true_iff_false in Hg. apply Hg, fav_guard_true.
      split; [done|]. by rewrite Hk.
Qed.

(** Every first key that has a pair with a positive count is emitted. *)
Lemma fav_loop_complete data exist x :
  x ∈ data -> 0 < x.2 -> x.1.1 ∉ exist ->
  x.1.1 ∈ (fun e => e.1.1) <$> fav_loop data exist [].
Proof.
  revert exist. induction data as [|i rest IH]; intros exist.
  - by intros ?%elem_of_nil.
  - rewrite fav_loop_cons. intros Hin Hpos Hnot.
    destruct ((0 <? i.2) && negb (bool_decide (i.1.1 ∈ exist))) eqn:Hg.
    + csimpl. apply elem_of_cons.
      destruct (decide (x.1.1 = i.1.1)) as [|Hne]; [by left|]. right.
      apply elem_of_cons in Hin as [->|Hin]; [done|]. apply IH; [done|done|].
      intros [?|Heq%list_elem_of_singleton]%elem_of_app; done.
    + apply elem_of_cons in Hin as [->|Hin]; [|by apply IH].
      exfalso. apply not_true_iff_false in Hg. by apply Hg, fav_guard_true.
Qed.
End FavFacts.

(** C5.  On a ranked pair table, [reduce_fav_item] returns a subsequence of
    the table that holds at most one pair per first key and only pairs of a
    positive count; the pair it holds for a first key is the first pair of
    that key in the table, and every first key with a positive count has
    its pair. *)
Theorem favorites_first_pair_per_key {K1 K2 : Type} `{EqDecision K1}
    (data : list (K1 * K2 * Z)) (Hranked : ranked data) :
  reduce_fav_item data `sublist_of` data
  /\ NoDup ((fun e => e.1.1) <$> reduce_fav_item data)
  /\ (forall e, e ∈ reduce_fav_item data -> 0 < e.2)
  /\ (forall e, e ∈ reduce_fav_item data ->
        exists l1 l2, data = l1 ++ e :: l2 /\ (e.1.1 ∉ (fun x => x.1.1) <$> l1))
  /\ (forall x, x ∈ data -> 0 < x.2 ->
        x.1.1 ∈ (fun e => e.1.1) <$> reduce_fav_item data).
Proof.
  unfold reduce_fav_item. split_and!.
  - apply fav_loop_sublist.
  - apply fav_loop_NoDup.
  - intros e Hin. by apply fav_loop_emitted in Hin as [? _].
  - intros e Hin. pose proof (fav_loop_emitted _ _ _ Hin) as [Hpos _].
    apply fav_loop_first in Hin as (l1 & l2 & -> & Hfirst).
    exists l1, l2. split; [done|]. intros (x & Hk & Hx)%list_elem_of_fmap.
    specialize (Hfirst x Hx (eq_sym Hk)).
    unfold ranked in Hranked. induction l1 as [|y l1 IH].
    + by apply elem_of_nil in Hx.
    + simpl in Hranked. apply StronglySorted_inv in Hranked as [Hs Hy].
      apply elem_of_cons in Hx as [->|Hx]; [|by apply IH].
      rewrite Forall_forall in Hy. specialize (Hy e). simpl in Hy.
      assert (e ∈ l1 ++ e :: l2) by (apply elem_of_app; right; apply list_elem_of_here).
      specialize (Hy ltac:(done)). lia.
  - intros x Hx Hpos. apply fav_loop_complete; [done|done|]. by intros ?%elem_of_nil.
Qed.

Lemma favorites_first_pair_per_key_witness :
  reduce_fav_item
    [("a", "x", 3); ("b", "y", 2); ("a", "z", 2)]%string
    `sublist_of` [("a", "x", 3); ("b", "y", 2); ("a", "z", 2)]%string.
Proof.
  apply (favorites_first_pair_per_key
           [("a", "x", 3); ("b", "y", 2); ("a", "z", 2)]%string).
  unfold ranked. repeat constructor; simpl; lia.
Defined.

(** ** The word filter *)

Section WordFacts.
Variables (isalnum isnumeric : string -> bool) (lower : string -> string).
Variable stop_words : list string.

#[local] Abbreviation counted := (counted isalnum isnumeric lower stop_words).

Lemma filter_single_word_counted w :
  filter_single_word isalnum isnumeric lower stop_words w = true <-> counted w.
Proof.
  unfold filter_single_word, counted.
  rewrite !andb_true_iff, !negb_true_iff, Z.ltb_lt, bool_decide_eq_false. tauto.
Qed.

Lemma reduce_and_filter_words_filter ws :
  reduce_and_filter_words isalnum isnumeric lower stop_words ws
  = lower <$> filter counted ws.
Proof.
  induction ws as [|w ws IH]; [done|]. simpl. rewrite filter_cons.
  fold (filter_single_word isalnum isnumeric lower stop_words w).
  destruct (decide (counted w)) as [Hc|Hc].
  - apply filter_single_word_counted in Hc. rewrite Hc. csimpl. by rewrite IH.
  - rewrite <- filter_single_word_counted in Hc. apply not_true_is_false in Hc.
    by rewrite Hc.
Qed.

Lemma fav_word_pairs_filter {S : Type} (fav_word : list (S * string)) :
  fav_word_pairs isalnum isnumeric lower stop_words fav_word
  = filter (fun x => counted x.2) fav_word.
Proof.
  induction fav_word as [|x rest IH]; [done|]. simpl. rewrite filter_cons.
  destruct (decide (counted x.2)) as [Hc|Hc].
  - apply filter_single_word_counted in Hc. rewrite Hc. by rewrite IH.
  - rewrite <- filter_single_word_counted in Hc. apply not_true_is_false in Hc.
    by rewrite Hc.
Qed.

(** Occurrences of a lower-cased word among the filtered words. *)
Lemma occurrences_lowered (k : string) ws :
  occurrences k (lower <$> filter counted ws)
  = len (filter (fun w => counted w /\ lower w = k) ws).
Proof.
  unfold occurrences, len. f_equal.
  induction ws as [|w ws IH]; [done|]. rewrite !filter_cons.
  destruct (decide (counted w)) as [Hc|Hc]; csimpl.
  - rewrite filter_cons. destruct (decide (lower w = k)).
    + rewrite decide_True by done. simpl. by rewrite IH.
    + rewrite decide_False by tauto. done.
  - rewrite decide_False by tauto. done.
Qed.

Lemma occurrences_filter {A : Type} `{EqDecision A} (P : A -> Prop)
    `{!forall a, Decision (P a)} (x : A) (l : list A) :
  P x -> occurrences x (filter P l) = occurrences x l.
Proof.
  intros Hx. unfold occurrences, len. f_equal.
  induction l as [|y l IH]; [done|]. rewrite !filter_cons.
  destruct (decide (P y)) as [Hy|Hy].
  - rewrite filter_cons. destruct (decide (y = x)); simpl; by rewrite IH.
  - destruct (decide (y = x)) as [->|]; done.
Qed.
End WordFacts.

(** C6.  A token is counted exactly when it is longer than one character,
    alphanumeric, not numeric and its lower-cased form is no stop word; what
    is counted is the lower-cased form.  On ASCII text ["hi"] is kept (and
    ["Hi"] counted as ["hi"]), ["123"] and ["a"] are left out, and so is
    ["The"] when ["the"] is a stop word. *)
Theorem word_filter_counts_lowered_tokens :
  (forall isalnum isnumeric lower stop_words ws,
     reduce_and_filter_words isalnum isnumeric lower stop_words ws
     = lower <$> filter (counted isalnum isnumeric lower stop_words) ws)
  /\ (forall isalnum isnumeric lower stop_words ws k c,
        (k, c) ∈ words_table isalnum isnumeric lower stop_words ws <->
        0 < c /\
        c = len (filter (fun w => counted isalnum isnumeric lower stop_words w
                                   /\ lower w = k) ws))
  /\ (forall stop_words,
        let kept := reduce_and_filter_words Str.isalnum Str.isnumeric Str.lower stop_words in
        ("hi"%string ∉ stop_words -> kept ["hi"; "Hi"]%string = ["hi"; "hi"]%string)
        /\ kept ["123"]%string = []
        /\ kept ["a"]%string = []
        /\ ("the"%string ∈ stop_words -> kept ["The"]%string = [])).
Proof.
  split_and!.
  - apply reduce_and_filter_words_filter.
  - intros isalnum isnumeric lower stop_words ws k c. unfold words_table.
    rewrite reduce_and_sort_elem_of, reduce_and_filter_words_filter,
      occurrences_lowered.
    split.
    + intros [Hin ->]. split; [|done]. rewrite <- occurrences_lowered.
      by apply occurrences_pos.
    + intros [Hpos ->]. split; [|done]. unfold len in Hpos.
      destruct (filter _ ws) as [|w l] eqn:Hf; [simpl in Hpos; lia|].
      assert (Hw : w ∈ filter (fun w => counted isalnum isnumeric lower stop_words w
                                         /\ lower w = k) ws)
        by (rewrite Hf; apply list_elem_of_here).
      apply list_elem_of_filter in Hw as [[Hc <-] Hw].
      apply list_elem_of_fmap. exists w. split; [done|].
      by apply list_elem_of_filter.
  - intros stop_words kept. subst kept. split_and!.
    + intros Hhi. simpl. by rewrite !bool_decide_eq_false_2.
    + done.
    + done.
    + intros Hthe. simpl. by rewrite bool_decide_eq_true_2.
Qed.

Lemma word_filter_counts_lowered_tokens_witness :
  reduce_and_filter_words Str.isalnum Str.isnumeric Str.lower ["the"]%string
    ["hi"; "Hi"]%string = ["hi"; "hi"]%string
  /\ reduce_and_filter_words Str.isalnum Str.isnumeric Str.lower ["the"]%string
       ["The"]%string = [].
Proof.
  pose proof word_filter_counts_lowered_tokens as (_ & _ & Hkept).
  destruct (Hkept ["the"]%string) as (Hhi & _ & _ & Hthe). split.
  - apply Hhi. intros Hin%list_elem_of_singleton. discriminate.
  - apply Hthe. apply list_elem_of_here.
Defined.

(** C10.  The favourite-word reduction keeps the pairs (sender, word) whose
    word passes the filter as they are, so the keys it ranks carry the word
    in its original case, each with the number of its own occurrences; the
    keys of the global word table are lower-cased words.  On ASCII text the
    pairs of ["Hello"] and ["hello"] of one sender are two keys, where the
    word table has the one key ["hello"]. *)
Theorem fav_word_keeps_original_case :
  (forall isalnum isnumeric lower stop_words (fav_word : list (string * string)),
     fav_word_pairs isalnum isnumeric lower stop_words fav_word
     = filter (fun x => counted isalnum isnumeric lower stop_words x.2) fav_word)
  /\ (forall isalnum isnumeric lower stop_words fav_word s w c,
        (s, w, c) ∈ fav_word_ranking isalnum isnumeric lower stop_words fav_word <->
        (s, w) ∈ fav_word /\ counted isalnum isnumeric lower stop_words w
        /\ c = occurrences (s, w) fav_word)
  /\ (forall isalnum isnumeric lower stop_words ws k c,
        (k, c) ∈ words_table isalnum isnumeric lower stop_words ws ->
        exists w, w ∈ ws /\ k = lower w)
  /\ fav_word_ranking Str.isalnum Str.isnumeric Str.lower []
       [("A", "Hello"); ("A", "hello")]%string
     = [("A", "Hello", 1); ("A", "hello", 1)]%string
  /\ words_table Str.isalnum Str.isnumeric Str.lower [] ["Hello"; "hello"]%string
     = [("hello"%string, 2)].
Proof.
  split_and!.
  - intros. apply fav_word_pairs_filter.
  - intros isalnum isnumeric lower stop_words fav_word s w c.
    unfold fav_word_ranking.
    rewrite reduce_and_sort_elem_of, fav_word_pairs_filter, list_elem_of_filter.
    simpl. split.
    + intros [[Hc Hin] ->]. split_and!; [done|done|].
      by apply (occurrences_filter (fun x => counted _ _ _ _ x.2)).
    + intros (Hin & Hc & ->). split; [done|]. symmetry.
      by apply (occurrences_filter (fun x => counted _ _ _ _ x.2)).
  - intros isalnum isnumeric lower stop_words ws k c. unfold words_table.
    rewrite reduce_and_sort_elem_of, reduce_and_filter_words_filter.
    intros [(w & -> & Hw)%list_elem_of_fmap _].
    apply list_elem_of_filter in Hw as [_ Hw]. by exists w.
  - reflexivity.
  - reflexivity.
Qed.

Lemma fav_word_keeps_original_case_witness :
  exists w, w ∈ ["Hello"; "hello"]%string /\ "hello"%string = Str.lower w.
Proof.
  pose proof fav_word_keeps_original_case as (_ & _ & Hkeys & _).
  apply (Hkeys Str.isalnum Str.isnumeric Str.lower [] ["Hello"; "hello"]%string
           "hello"%string 2).
  vm_compute. apply list_elem_of_here.
Defined.

(** ** The date filter *)

Section DateFilterFacts.
Import Parsing.

(** With a timestamp, a line is counted exactly when the timestamp is not
    before the start bound and is before the end bound. *)
Lemma date_filter_present (start_d end_d : option Z) (t : Z) :
  date_filter start_d end_d (Some t)
  = Ok (match start_d with Some s => s <=? t | None => true end
        && match end_d with Some e => t <? e | None => true end).
Proof.
  unfold date_filter.
  destruct start_d as [s|], end_d as [e|]; simpl;
    repeat (match goal with
            | |- context [?a <? ?b] => destruct (Z.ltb_spec a b); simpl
            | |- context [?a <=? ?b] => destruct (Z.leb_spec a b); simpl
            end); first [done | lia].
Qed.

(** Without a timestamp, a line is counted when no bound is given and the
    comparison fails as soon as one is. *)
Lemma date_filter_absent (start_d end_d : option Z) :
  date_filter start_d end_d None
  = match start_d, end_d with
    | None, None => Ok true
    | _, _ => Raise TypeError
    end.
Proof. by destruct start_d, end_d. Qed.

Lemma end_date_last_microsecond (d : Z) :
  end_date (Some d) = Some (parse (d + 1) - 1).
Proof. unfold end_date, parse, timedelta. f_equal. lia. Qed.
End DateFilterFacts.

(** C7.  The date filter at the two inputs where it departs from the
    inclusive window: the last microsecond of the end day, which lies before
    [endDate + 1 day], is skipped; and a line without a timestamp makes the
    comparison with a given bound raise [TypeError], so that the count of
    the lines ends with that exception. *)
Theorem date_filter_departs_from_window :
  Parsing.date_filter (Parsing.start_date None) (Parsing.end_date (Some 0))
    (Some (Parsing.parse 1 - 1)) = Ok false
  /\ Parsing.parse 1 - 1 < Parsing.parse (0 + 1)
  /\ Parsing.date_filter (Parsing.start_date (Some 0)) (Parsing.end_date None) None
     = Raise TypeError
  /\ Parsing.parse_and_count (Some 0) None
       [{| Parsing.kind := Parsing.Other; Parsing.timestamp := None;
           Parsing.sender := None; Parsing.is_deleted_chat := false;
           Parsing.words := ["more"%string]; Parsing.emojis := [];
           Parsing.domains := [] |}]
     = Raise TypeError.
Proof. split_and!; reflexivity. Qed.

(** ** Printing *)

Section IoFacts.
Import Render.

Lemma print_bind {B : Type} (l : line) (k : unit -> io B) :
  print l ≫= k = (l :: (k tt).1, (k tt).2).
Proof. unfold print, mbind, io_bind. by destruct (k tt). Qed.

Lemma lift_ok_bind {A B : Type} (a : A) (k : A -> io B) : lift (Ok a) ≫= k = k a.
Proof. unfold lift, mbind, io_bind. by destruct (k a). Qed.

Lemma lift_raise_bind {A B : Type} (e : exn) (k : A -> io B) :
  lift (Raise e) ≫= k = ([], Raise e).
Proof. done. Qed.

Lemma printed_bind {A B : Type} (m : io A) (k : A -> io B) :
  printed (m ≫= k)
  = printed m ++ match m.2 with Ok a => printed (k a) | Raise _ => [] end.
Proof.
  unfold printed, mbind, io_bind. destruct m as [out [a|e]]; simpl.
  - by destruct (k a).
  - by rewrite app_nil_r.
Qed.

Lemma raised_bind {A B : Type} (m : io A) (k : A -> io B) :
  raised (m ≫= k)
  = match m.2 with Ok a => raised (k a) | Raise e => Some e end.
Proof.
  unfold raised, mbind, io_bind. destruct m as [out [a|e]]; simpl; [|done].
  by destruct (k a).
Qed.

Lemma for_each_cons {A : Type} (body : A -> io unit) (x : A) (l : list A) :
  for_each body (x :: l) = body x ≫= fun _ => for_each body l.
Proof. done. Qed.

(** A loop whose body prints one line prints one line per element. *)
Lemma for_each_print {A : Type} (f : A -> line) (l : list A) :
  for_each (fun x => print (f x)) l = (f <$> l, Ok tt).
Proof.
  induction l as [|x l IH]; [done|]. by rewrite for_each_cons, print_bind, IH.
Qed.

(** A loop whose body never fails and prints the line [f x] for [x]. *)
Lemma for_each_ok {A : Type} (body : A -> io unit) (f : A -> line) (l : list A) :
  (forall x, x ∈ l -> body x = print (f x)) ->
  for_each body l = (f <$> l, Ok tt).
Proof.
  induction l as [|x l IH]; intros Hbody; [done|].
  rewrite for_each_cons, (Hbody x) by apply list_elem_of_here.
  rewrite print_bind, IH; [done|].
  intros y Hy. apply Hbody. by apply list_elem_of_further.
Qed.
End IoFacts.

(** ** Floats *)

Section FloatFacts.

(** The comparison of an int with a float is the strict order of the
    numbers. *)
Lemma int_gt_value (n : Z) (x : spec_float) :
  Float.finite x -> Float.int_gt n x = true <-> (Float.value x < inject_Z n)%Q.
Proof.
  destruct x as [s|s| |s m e]; simpl; try done; intros _;
    rewrite negb_true_iff, <- not_true_iff_false, Qle_bool_iff;
    (split; [apply Qnot_le_lt | apply Qlt_not_le]).
Qed.

(** Cutting off and rounding down give the same number of cells. *)
Lemma truncate_floor_nat (q : Q) : Z.to_nat (Float.truncate q) = Z.to_nat (Qfloor q).
Proof.
  destruct q as [n d]. unfold Float.truncate, Qfloor. simpl.
  destruct (Z_lt_le_dec n 0) as [Hneg|Hpos].
  - assert (Hq : Z.quot n (Z.pos d) <= 0).
    { replace n with (- - n) by lia. rewrite Z.quot_opp_l by lia.
      pose proof (Z.quot_pos (- n) (Z.pos d)). lia. }
    assert (Hd : n / Z.pos d < 0) by (apply Z.div_lt_upper_bound; lia).
    lia.
  - by rewrite Z.quot_div_nonneg by lia.
Qed.

Lemma int_floor_nat (x : spec_float) (z : Z) :
  Float.int x = Ok z -> Z.to_nat z = Z.to_nat (Qfloor (Float.value x)).
Proof.
  destruct x as [s|s| |s m e]; simpl; try done;
    intros [= <-]; apply truncate_floor_nat.
Qed.
(** *** Floats of 53 digits *)


Lemma digits2_size (p : positive) : digits2_pos p = Pos.size p.
Proof. induction p as [p IH|p IH|]; simpl; by rewrite ?IH. Qed.

(** The number of digits of a mantissa between two powers of 2. *)
Lemma digits_between (m : positive) (d : Z) :
  2 ^ (d - 1) <= Z.pos m < 2 ^ d -> Z.pos (digits2_pos m) = d.
Proof.
  intros [Hlo Hhi]. rewrite digits2_size.
  pose proof (Pos.size_gt m) as Hgt. pose proof (Pos.size_le m) as Hle.
  apply Pos2Z.pos_lt_pos in Hgt. apply Pos2Z.pos_le_pos in Hle.
  rewrite (Pos2Z.inj_xO m) in Hle. rewrite Pos2Z.inj_pow in Hgt, Hle.
  assert (Hd : 0 < d).
  { destruct (Z_lt_le_dec 0 d) as [|Hd]; [done|].
    rewrite (Z.pow_neg_r 2 (d - 1)) in Hlo by lia.
    assert (2 ^ d <= 1); [|lia].
    destruct (Z.eq_dec d 0) as [->|]; [done|]. rewrite Z.pow_neg_r by lia. lia. }
  assert (d - 1 < Z.pos (Pos.size m)).
  { apply (Z.pow_lt_mono_r_iff 2); lia. }
  assert (Z.pos (Pos.size m) < d + 1).
  { apply (Z.pow_lt_mono_r_iff 2); try lia.
    rewrite (Z.pow_add_r 2 d 1), Z.pow_1_r by lia. lia. }
  lia.
Qed.

Lemma fexp_above (k : Z) :
  -1021 <= k -> fexp Float.prec Float.emax k = k - 53.
Proof. unfold fexp, emin, Float.prec, Float.emax. lia. Qed.

Lemma shr_m_of_loc (m : Z) (l : location) : shr_m (shr_record_of_loc m l) = m.
Proof. by destruct l as [|[]]. Qed.

(** A mantissa of 53 digits is not shifted. *)
Lemma shr_fexp_53 (m : positive) (e : Z) (l : location) :
  Float.normal m -> -1074 <= e ->
  shr_fexp Float.prec Float.emax (Z.pos m) e l = (shr_record_of_loc (Z.pos m) l, e).
Proof.
  intros Hm He. unfold shr_fexp. cbn [Zdigits2].
  rewrite (digits_between m 53) by exact Hm. rewrite fexp_above by lia.
  replace (53 + e - 53 - e) with 0 by lia. done.
Qed.

(** A mantissa of 54 digits is shifted by one digit. *)
Lemma shr_fexp_54 (m : positive) (e : Z) (l : location) :
  2 ^ 53 <= Z.pos m < 2 ^ 54 -> -1075 <= e ->
  shr_fexp Float.prec Float.emax (Z.pos m) e l
  = (shr_1 (shr_record_of_loc (Z.pos m) l), e + 1).
Proof.
  intros Hm He. unfold shr_fexp. cbn [Zdigits2].
  rewrite (digits_between m 54) by exact Hm. rewrite fexp_above by lia.
  replace (54 + e - 53 - e) with 1 by lia. done.
Qed.

Lemma shr_1_halves (p : positive) (l : location) :
  2 <= Z.pos p ->
  exists p', shr_m (shr_1 (shr_record_of_loc (Z.pos p) l)) = Z.pos p'
             /\ 2 * Z.pos p' <= Z.pos p <= 2 * Z.pos p' + 1.
Proof.
  intros Hp. destruct p as [p|p|]; [| |lia]; exists p;
    (split; [by destruct l as [|[]] | lia]).
Qed.

Lemma round_nearest_even_range (mx : Z) (lx : location) :
  mx <= round_nearest_even mx lx <= mx + 1.
Proof. destruct lx as [|[]]; simpl; try destruct (Z.even mx); lia. Qed.

(** A mantissa of 53 or 54 digits is brought to 53 digits. *)
Lemma shr_fexp_normal (m : positive) (e : Z) (l : location) :
  2 ^ 52 <= Z.pos m < 2 ^ 54 -> -1074 <= e ->
  exists mrs e1 m1,
    shr_fexp Float.prec Float.emax (Z.pos m) e l = (mrs, e1)
    /\ shr_m mrs = Z.pos m1 /\ Float.normal m1 /\ e <= e1 <= e + 1.
Proof.
  intros Hm He. destruct (Z_lt_le_dec (Z.pos m) (2 ^ 53)) as [Hlt|Hge].
  - exists (shr_record_of_loc (Z.pos m) l), e, m.
    rewrite shr_fexp_53 by (unfold Float.normal; lia).
    split_and!; [done|apply shr_m_of_loc|unfold Float.normal; lia|lia|lia].
  - destruct (shr_1_halves m l) as (p & Hp & Hhalf); [lia|].
    exists (shr_1 (shr_record_of_loc (Z.pos m) l)), (e + 1), p.
    rewrite shr_fexp_54 by lia.
    split_and!; [done|done|unfold Float.normal; lia|lia|lia].
Qed.

(** Rounding a mantissa of 53 or 54 digits gives a finite float of 53
    digits. *)
Lemma binary_round_aux_normal (s : bool) (m : positive) (e : Z) (l : location) :
  2 ^ 52 <= Z.pos m < 2 ^ 54 -> -1074 <= e <= 960 ->
  exists m' e',
    binary_round_aux Float.prec Float.emax s (Z.pos m) e l = S754_finite s m' e'
    /\ Float.normal m' /\ e <= e' <= e + 2.
Proof.
  intros Hm He. unfold binary_round_aux.
  destruct (shr_fexp_normal m e l Hm) as (mrs & e1 & m1 & -> & Hm1 & Hn1 & He1); [lia|].
  rewrite Hm1.
  pose proof (round_nearest_even_range (Z.pos m1) (loc_of_shr_record mrs)) as Hr.
  destruct (round_nearest_even _ _) as [|m2|m2]; [lia| |lia].
  destruct (shr_fexp_normal m2 e1 loc_Exact) as (mrs2 & e2 & m3 & -> & Hm3 & Hn3 & He2).
  { unfold Float.normal in Hn1. lia. }
  { lia. }
  rewrite Hm3. exists m3, e2.
  replace (e2 <=? Float.emax - Float.prec) with true
    by (symmetry; apply Z.leb_le; unfold Float.emax, Float.prec; lia).
  split_and!; [done|done|lia|lia].
Qed.

Lemma iter_xO_pow (p k : positive) :
  Z.pos (Pos.iter xO p k) = Z.pos p * 2 ^ Z.pos k.
Proof.
  induction k as [|k IH] using Pos.peano_ind.
  - simpl. lia.
  - rewrite Pos.iter_succ, Pos2Z.inj_xO, IH, Pos2Z.inj_succ, Z.pow_succ_r by lia. lia.
Qed.

(** The float of a positive mantissa below [2 ** 53] is finite, of 53
    digits. *)
Lemma binary_round_normal (s : bool) (p : positive) :
  Z.pos p < 2 ^ 53 ->
  exists m e,
    binary_round Float.prec Float.emax s p 0 = S754_finite s m e
    /\ Float.normal m /\ -52 <= e <= 2.
Proof.
  intros Hn. unfold binary_round.
  set (d := Z.pos (digits2_pos p)).
  assert (Hd : 2 ^ (d - 1) <= Z.pos p < 2 ^ d).
  { unfold d. rewrite digits2_size.
    pose proof (Pos.size_gt p) as Hgt. pose proof (Pos.size_le p) as Hle.
    apply Pos2Z.pos_lt_pos in Hgt. apply Pos2Z.pos_le_pos in Hle.
    rewrite (Pos2Z.inj_xO p) in Hle. rewrite Pos2Z.inj_pow in Hgt, Hle.
    replace (Z.pos (Pos.size p)) with (Z.succ (Z.pos (Pos.size p) - 1)) in Hle by lia.
    rewrite Z.pow_succ_r in Hle by lia. lia. }
  assert (Hd53 : 1 <= d <= 53).
  { split; [unfold d; lia|].
    assert (d - 1 < 53); [|lia]. apply (Z.pow_lt_mono_r_iff 2); lia. }
  rewrite fexp_above by lia. unfold shl_align.
  replace (d + 0 - 53 - 0) with (d - 53) by lia.
  destruct (d - 53) as [|k|k] eqn:Hk; [|lia|].
  - destruct (binary_round_aux_normal s p 0 loc_Exact) as (m & e & -> & Hm & He);
      [replace d with 53 in Hd by lia; simpl in Hd; lia|lia|].
    exists m, e. split_and!; [done|done|lia|lia].
  - assert (Hmz : 2 ^ 52 <= Z.pos (Pos.iter xO p k) < 2 ^ 53).
    { rewrite iter_xO_pow.
      assert (H52 : 2 ^ 52 = 2 ^ (d - 1) * 2 ^ Z.pos k)
        by (rewrite <- Z.pow_add_r by lia; f_equal; lia).
      assert (H53 : 2 ^ 53 = 2 ^ d * 2 ^ Z.pos k)
        by (rewrite <- Z.pow_add_r by lia; f_equal; lia).
      rewrite H52, H53. assert (0 < 2 ^ Z.pos k) by (apply Z.pow_pos_nonneg; lia).
      split; [apply Z.mul_le_mono_nonneg_r | apply Z.mul_lt_mono_pos_r]; lia. }
    destruct (binary_round_aux_normal s (Pos.iter xO p k) (d + 0 - 53) loc_Exact)
      as (m & e & -> & Hm & He); [lia|lia|].
    exists m, e. split_and!; [done|done|lia|lia].
Qed.

(** The float of an int other than 0 and within [2 ** 53]. *)
Lemma of_int_normal (n : Z) :
  n <> 0 -> - 2 ^ 53 < n < 2 ^ 53 ->
  exists m e,
    Float.of_int n = S754_finite (n <? 0) m e /\ Float.normal m /\ -52 <= e <= 2.
Proof.
  intros Hn0 Hn. destruct n as [|p|p]; [done| |]; apply binary_round_normal; lia.
Qed.

(** The quotient of two finite floats of 53 digits is one, unless the
    exponents are far apart. *)
Lemma SFdiv_normal (s1 : bool) (m1 : positive) (e1 : Z)
    (s2 : bool) (m2 : positive) (e2 : Z) :
  Float.normal m1 -> Float.normal m2 -> -900 <= e1 - e2 <= 900 ->
  exists m e,
    SFdiv Float.prec Float.emax (S754_finite s1 m1 e1) (S754_finite s2 m2 e2)
    = S754_finite (xorb s1 s2) m e
    /\ Float.normal m /\ e1 - e2 - 53 <= e <= e1 - e2 - 51.
Proof.
  intros Hm1 Hm2 He. unfold SFdiv, SFdiv_core_binary. cbn [Zdigits2].
  rewrite (digits_between m1 53), (digits_between m2 53) by done.
  rewrite fexp_above by lia.
  replace (Z.min (53 + e1 - (53 + e2) - 53) (e1 - e2)) with (e1 - e2 - 53) by lia.
  replace (e1 - e2 - (e1 - e2 - 53)) with 53 by lia.
  rewrite Z.shiftl_mul_pow2 by lia.
  pose proof (Z_div_mod (Z.pos m1 * 2 ^ 53) (Z.pos m2) eq_refl) as Hdiv.
  destruct (Z.div_eucl (Z.pos m1 * 2 ^ 53) (Z.pos m2)) as [q r].
  destruct Hdiv as [Hq Hr]. unfold Float.normal in Hm1, Hm2.
  assert (Hq52 : 2 ^ 52 <= q < 2 ^ 54) by nia.
  destruct q as [|mq|mq]; [lia| |lia].
  destruct (binary_round_aux_normal (xorb s1 s2) mq (e1 - e2 - 53)
              (new_location (Z.pos m2) r)) as (m & e & -> & Hm & He'); [lia|lia|].
  exists m, e. split_and!; [done|done|lia|lia].
Qed.
End FloatFacts.

(** ** The calendar heat map *)

Section CalendarFacts.
Import Render.

Lemma max_by_from_elem_of {A : Type} (key : A -> Z) (best : A) (l : list A) :
  max_by_from key best l ∈ best :: l.
Proof.
  revert best. induction l as [|x l IH]; intros best; simpl.
  - apply list_elem_of_here.
  - specialize (IH (if key best <? key x then x else best)).
    apply elem_of_cons in IH as [->|IH].
    + destruct (key best <? key x); [apply list_elem_of_further|]; apply list_elem_of_here.
    + by do 2 apply list_elem_of_further.
Qed.

Lemma max_by_from_upper {A : Type} (key : A -> Z) (best : A) (l : list A) (x : A) :
  x ∈ best :: l -> key x <= key (max_by_from key best l).
Proof.
  revert best x. induction l as [|y l IH]; intros best x; simpl.
  - intros ->%list_elem_of_singleton. lia.
  - intros Hx. destruct (Z.ltb_spec (key best) (key y)) as [Hlt|Hge].
    + apply elem_of_cons in Hx as [->|Hx]; [|by apply IH].
      etrans; [|apply IH, list_elem_of_here]. lia.
    + apply elem_of_cons in Hx as [->|[->|Hx]%elem_of_cons].
      * apply IH, list_elem_of_here.
      * etrans; [|apply IH, list_elem_of_here]. lia.
      * by apply IH, list_elem_of_further.
Qed.

(** [max_val] never fails: it is the largest count of the mapping, and 0
    for the empty mapping. *)
Lemma max_val_largest (data : list (string * string * Z)) :
  exists m : Z,
    max_val data = Ok (Float.of_int m)
    /\ (data = [] -> m = 0)
    /\ (data <> [] -> exists k, dict_get data k = Some m)
    /\ (forall k v, dict_get data k = Some v -> v <= m).
Proof.
  destruct data as [|[k0 v0] rest].
  - exists 0. split_and!; done.
  - set (data := (k0, v0) :: rest). unfold max_val.
    replace (len data =? 0) with false
      by (symmetry; apply Z.eqb_neq; unfold len, data; simpl; lia).
    set (key := fun k => default 0 (dict_get data k)).
    change (keys data) with (k0 :: keys rest).
    change (max_by key (k0 :: keys rest))
      with (Ok (max_by_from key k0 (keys rest))).
    cbn [rbind]. set (r := max_by_from key k0 (keys rest)).
    assert (Hr : r ∈ keys data) by apply max_by_from_elem_of.
    destruct (dict_get data r) as [m|] eqn:Hm;
      [|by apply dict_get_None in Hm].
    exists m. split_and!; [done|done|by exists r|].
    intros k v Hk. assert (Hin : k ∈ keys data).
    { destruct (decide (k ∈ keys data)) as [|Hnot]; [done|].
      apply dict_get_None in Hnot. congruence. }
    pose proof (max_by_from_upper key k0 (keys rest) k Hin) as Hle.
    fold r in Hle. unfold key in Hle. by rewrite Hk, Hm in Hle.
Qed.

(** The glyph of a cell, by its count and the largest count. *)
Lemma cell_levels (data : list (string * string * Z)) (m : Z) (day hour : string) :
  cell data (ticks (Float.of_int m)) day hour
  = match dict_get data (day, hour) with
    | None => NoData
    | Some c =>
        if Float.int_gt c (Float.mul three_quarters (Float.of_int m)) then Level4
        else if Float.int_gt c (Float.mul half (Float.of_int m)) then Level3
        else if Float.int_gt c (Float.mul quarter (Float.of_int m)) then Level2
        else Level1
    end.
Proof. done. Qed.

Lemma printCalendar_rows (data : list (string * string * Z)) (m : Z) :
  max_val data = Ok (Float.of_int m) ->
  printCalendar data
  = (CalHeader ((fun day => substring 0 3 day) <$> days)
       :: ((fun hour =>
              CalRow hour ((fun day => cell data (ticks (Float.of_int m)) day hour) <$> days))
           <$> hours),
     Ok tt).
Proof.
  intros Hm. unfold printCalendar. rewrite Hm, lift_ok_bind, print_bind.
  by rewrite for_each_print.
Qed.
End CalendarFacts.

(** C3.  [printCalendar] does not fail.  With [m] the largest count of the
    mapping (0 for the empty mapping), it prints for each hour a row with one
    glyph per day: the "no data" glyph for a key that is absent, whatever
    the other cells hold, and for a count [c] level 4 when [c > 0.75 * m],
    else level 3 when [c > 0.50 * m], else level 2 when [c > 0.25 * m], else
    level 1.  The comparison is the strict order of the numbers, so a count
    equal to a threshold takes the lower level: under a largest count of 10
    the threshold [0.50 * 10] is 5 and a count of 5 is of level 2. *)
Theorem heatmap_levels_by_strict_thresholds :
  (forall data : list (string * string * Z),
     exists m : Z,
       Render.max_val data = Ok (Float.of_int m)
       /\ (data = [] -> m = 0)
       /\ (data <> [] -> exists k, dict_get data k = Some m)
       /\ (forall k v, dict_get data k = Some v -> v <= m)
       /\ Render.printCalendar data
          = (Render.CalHeader ((fun day => substring 0 3 day) <$> Render.days)
               :: ((fun hour =>
                      Render.CalRow hour
                        ((fun day =>
                            Render.cell data (Render.ticks (Float.of_int m)) day hour)
                         <$> Render.days))
                   <$> Render.hours),
             Ok tt)
       /\ (forall day hour,
             Render.cell data (Render.ticks (Float.of_int m)) day hour
             = match dict_get data (day, hour) with
               | None => Render.NoData
               | Some c =>
                   if Float.int_gt c (Float.mul Render.three_quarters (Float.of_int m))
                   then Render.Level4
                   else if Float.int_gt c (Float.mul Render.half (Float.of_int m))
                   then Render.Level3
                   else if Float.int_gt c (Float.mul Render.quarter (Float.of_int m))
                   then Render.Level2
                   else Render.Level1
               end))
  /\ (forall (c : Z) (threshold : spec_float),
        Float.finite threshold ->
        Float.int_gt c threshold = true <-> (Float.value threshold < inject_Z c)%Q)
  /\ (let data := [("Monday", "09", 10); ("Tuesday", "10", 5)]%string in
      Render.max_val data = Ok (Float.of_int 10)
      /\ (Float.value (Float.mul Render.three_quarters (Float.of_int 10)) == 75 # 10)%Q
      /\ (Float.value (Float.mul Render.half (Float.of_int 10)) == 5)%Q
      /\ (Float.value (Float.mul Render.quarter (Float.of_int 10)) == 25 # 10)%Q
      /\ Render.cell data (Render.ticks (Float.of_int 10)) "Tuesday" "10" = Render.Level2
      /\ Render.cell data (Render.ticks (Float.of_int 10)) "Monday" "09" = Render.Level4
      /\ Render.cell data (Render.ticks (Float.of_int 10)) "Sunday" "23" = Render.NoData).
Proof.
  split_and!.
  - intros data. destruct (max_val_largest data) as (m & Hm & H0 & Hex & Hub).
    exists m. split_and!; [done|done|done|done| |].
    + by apply printCalendar_rows.
    + intros day hour. apply cell_levels.
  - apply int_gt_value.
  - vm_compute. split_and!; reflexivity.
Qed.

Lemma heatmap_levels_by_strict_thresholds_witness :
  Float.int_gt 5 (Float.mul Render.half (Float.of_int 10)) = false
  /\ Float.int_gt 6 (Float.mul Render.half (Float.of_int 10)) = true.
Proof.
  pose proof heatmap_levels_by_strict_thresholds as (_ & Hgt & _).
  split.
  - apply not_true_iff_false. intros Habs. apply Hgt in Habs; [|exact I].
    revert Habs. vm_compute. discriminate.
  - apply Hgt; [exact I|]. vm_compute. reflexivity.
Defined.

(** ** The bar chart *)

Section BarFacts.
Import Render.

(** The bar of [printBar] when neither division nor the conversion fails. *)
Lemma printBar_parts (value total : Z) (label : string) (length : Z)
    (scale quotient : spec_float) (filledLength : Z) :
  Float.int_div total length = Ok scale ->
  Float.div (Float.of_int value) scale = Ok quotient ->
  Float.int quotient = Ok filledLength ->
  printBar value total label length
  = print (Bar label (Z.to_nat filledLength) value).
Proof.
  intros Hs Hq Hz. unfold printBar.
  by rewrite Hs, lift_ok_bind, Hq, lift_ok_bind, Hz, lift_ok_bind.
Qed.

(** [printBar] on a count and a total other than 0, both within
    [2 ** 53], for the length 50. *)
Lemma printBar_in_range (value total : Z) (label : string) :
  - 2 ^ 53 < value < 2 ^ 53 -> total <> 0 -> - 2 ^ 53 < total < 2 ^ 53 ->
  raised (printBar value total label 50) = None.
Proof.
  intros Hv Ht0 Ht.
  destruct (of_int_normal total Ht0 Ht) as (mt & et & Htotal & Hmt & Het).
  destruct (of_int_normal 50) as (m50 & e50 & H50 & Hm50 & He50); [done|lia|].
  assert (He50' : e50 = -47) by (vm_compute in H50; by injection H50).
  destruct (SFdiv_normal (total <? 0) mt et (50 <? 0) m50 e50 Hmt Hm50)
    as (ms & es & Hscale & Hms & Hes); [lia|].
  assert (Hquot : exists z,
             Float.int (SFdiv Float.prec Float.emax (Float.of_int value)
                          (S754_finite (xorb (total <? 0) (50 <? 0)) ms es)) = Ok z).
  { destruct (Z.eq_dec value 0) as [->|Hv0]; [by eexists|].
    destruct (of_int_normal value Hv0 Hv) as (mv & ev & -> & Hmv & Hev).
    destruct (SFdiv_normal (value <? 0) mv ev (xorb (total <? 0) (50 <? 0)) ms es Hmv Hms)
      as (mq & eq & -> & _); [lia|]. by eexists. }
  destruct Hquot as [z Hz].
  rewrite (printBar_parts value total label 50
             (S754_finite (xorb (total <? 0) (50 <? 0)) ms es)
             (SFdiv Float.prec Float.emax (Float.of_int value)
                (S754_finite (xorb (total <? 0) (50 <? 0)) ms es)) z);
    [done| |done|exact Hz].
  unfold Float.int_div. simpl (50 =? 0). cbv iota. by rewrite Htotal, H50, Hscale.
Qed.

(** What [printBar] did when it did not fail. *)
Lemma printBar_inv (value total : Z) (label : string) (length : Z) :
  raised (printBar value total label length) = None ->
  exists scale,
    Float.int_div total length = Ok scale
    /\ Float.is_zero scale = false
    /\ printBar value total label length
       = print (Bar label (Z.to_nat (filledLength value scale)) value).
Proof.
  unfold printBar. destruct (Float.int_div total length) as [scale|e] eqn:Hs; [|done].
  rewrite lift_ok_bind. unfold Float.div.
  destruct (Float.is_zero scale) eqn:Hzero; [done|]. rewrite lift_ok_bind.
  destruct (Float.int _) as [z|e] eqn:Hz; [|done]. rewrite lift_ok_bind. intros _.
  exists scale. split_and!; [done|done|]. unfold filledLength.
  by rewrite (int_floor_nat _ _ Hz).
Qed.



Lemma printBar_prints_bars (value total : Z) (label : string) (length : Z) :
  Forall (fun l => match l with Bar _ _ _ => True | _ => False end)
    (printed (printBar value total label length)).
Proof.
  unfold printBar. destruct (Float.int_div total length) as [scale|e]; [|by constructor].
  rewrite lift_ok_bind.
  destruct (Float.div _ scale) as [q|e]; [|by constructor]. rewrite lift_ok_bind.
  destruct (Float.int q) as [z|e]; [|by constructor]. rewrite lift_ok_bind.
  by repeat constructor.
Qed.

(** Whether [printBar] fails does not depend on the label. *)
Lemma printBar_raised_label (value total : Z) (label label' : string) (length : Z) :
  raised (printBar value total label length)
  = raised (printBar value total label' length).
Proof.
  unfold printBar. destruct (Float.int_div total length) as [scale|e]; [|done].
  rewrite !lift_ok_bind.
  destruct (Float.div _ scale) as [q|e]; [|done]. rewrite !lift_ok_bind.
  destruct (Float.int q) as [z|e]; [|done]. by rewrite !lift_ok_bind.
Qed.

Lemma max_of_elem_of (x : Z) (l : list Z) : max_of x l ∈ x :: l.
Proof.
  unfold max_of. revert x. induction l as [|y l IH]; intros x; simpl.
  - apply list_elem_of_here.
  - specialize (IH (Z.max x y)). apply elem_of_cons in IH as [->|IH].
    + destruct (Z.max_spec x y) as [[_ ->]|[_ ->]];
        [apply list_elem_of_further|]; apply list_elem_of_here.
    + by do 2 apply list_elem_of_further.
Qed.

Lemma max_of_upper (x : Z) (l : list Z) (y : Z) : y ∈ x :: l -> y <= max_of x l.
Proof.
  unfold max_of. revert x y. induction l as [|z l IH]; intros x y; simpl.
  - intros ->%list_elem_of_singleton. lia.
  - intros [->|[->|Hy]%elem_of_cons]%elem_of_cons.
    + etrans; [|apply IH, list_elem_of_here]. lia.
    + etrans; [|apply IH, list_elem_of_here]. lia.
    + by apply IH, list_elem_of_further.
Qed.

(** The largest count of a non-empty table. *)
Lemma py_max_largest (data : list (string * Z)) :
  data <> [] ->
  exists total, py_max (snd <$> data) = Ok total
                /\ (exists x, x ∈ data /\ x.2 = total)
                /\ (forall x, x ∈ data -> x.2 <= total).
Proof.
  destruct data as [|x rest]; [done|]. intros _. csimpl.
  exists (max_of x.2 (snd <$> rest)). split_and!; [done| |].
  - pose proof (max_of_elem_of x.2 (snd <$> rest)) as Hin.
    change (x.2 :: (snd <$> rest)) with (snd <$> x :: rest) in Hin.
    apply list_elem_of_fmap in Hin as (y & Hy & Hin). by exists y.
  - intros y Hy. apply max_of_upper.
    change (x.2 :: (snd <$> rest)) with (snd <$> x :: rest).
    by apply list_elem_of_fmap_2.
Qed.

(** The width of the widest label of a non-empty table. *)
Lemma widest_label (data : list (string * Z)) :
  data <> [] ->
  exists top, first (sorted_rev (fun tup => Str.len tup.1) data) = Ok top
              /\ top ∈ data
              /\ (forall x, x ∈ data -> Str.len x.1 <= Str.len top.1).
Proof.
  intros Hne.
  pose proof (sorted_rev_Permutation (fun tup : string * Z => Str.len tup.1) data) as Hp.
  pose proof (sorted_rev_sorted (fun tup : string * Z => Str.len tup.1) data) as Hs.
  destruct (sorted_rev _ data) as [|top rest].
  - by apply Permutation_nil in Hp.
  - exists top. split_and!; [done| |].
    + rewrite <- Hp. apply list_elem_of_here.
    + intros x Hx. rewrite <- Hp in Hx. apply StronglySorted_inv in Hs as [_ Hall].
      apply elem_of_cons in Hx as [->|Hx]; [done|].
      rewrite Forall_forall in Hall. by apply Hall.
Qed.
End BarFacts.

Section LoopFacts.
Import Render.
Context {A : Type}.
Implicit Types (body : A -> io unit) (l : list A).

Lemma for_each_raised_None body l :
  raised (for_each body l) = None -> forall x, x ∈ l -> raised (body x) = None.
Proof.
  induction l as [|y l IH]; [by intros _ x ?%elem_of_nil|].
  rewrite for_each_cons, raised_bind. unfold raised at 2.
  destruct (body y) as [out [[]|e]] eqn:Hy; [|done]. simpl.
  intros Hl x [->|Hx]%elem_of_cons; [by rewrite Hy | by apply IH].
Qed.


Lemma for_each_printed_Forall (P : line -> Prop) body l :
  (forall x, Forall P (printed (body x))) -> Forall P (printed (for_each body l)).
Proof.
  intros Hbody. induction l as [|y l IH]; [by constructor|].
  rewrite for_each_cons, printed_bind. apply Forall_app. split; [done|].
  by destruct (body y).2.
Qed.

Lemma for_each_no_raise body l :
  (forall x, x ∈ l -> raised (body x) = None) -> raised (for_each body l) = None.
Proof.
  induction l as [|y l IH]; intros Hbody; [done|].
  rewrite for_each_cons, raised_bind.
  pose proof (Hbody y (list_elem_of_here _ _)) as Hy. unfold raised in Hy.
  destruct (body y) as [out [[]|e]]; [|done]. simpl.
  apply IH. intros x Hx. apply Hbody. by apply list_elem_of_further.
Qed.

(** Two loops over lists of one length whose bodies fail alike fail
    alike. *)
Lemma for_each_raised_ext {B : Type} body (body' : B -> io unit) l (l' : list B) :
  Forall2 (fun x y => raised (body x) = raised (body' y)) l l' ->
  raised (for_each body l) = raised (for_each body' l').
Proof.
  induction 1 as [|x y l l' Hxy _ IH]; [done|].
  rewrite !for_each_cons, !raised_bind. unfold raised in Hxy.
  destruct (body x) as [out [[]|e]], (body' y) as [out' [[]|e']]; simpl in *;
    congruence.
Qed.
End LoopFacts.

Section BarChartFacts.
Import Render.
Implicit Types (data : list (string * Z)).

Lemma printBarChart_empty : printBarChart [] = ([EmptyData], Ok tt).
Proof. done. Qed.

Lemma printBarChart_loop data total top :
  data <> [] ->
  py_max (snd <$> data) = Ok total ->
  first (sorted_rev (fun tup => Str.len tup.1) data) = Ok top ->
  printBarChart data
  = for_each
      (fun i =>
         printBar i.2 total
           (i.1 ++ Str.spaces (Z.to_nat (Str.len top.1 - Str.len i.1)))%string 50)
      data.
Proof.
  intros Hne Hmax Htop. unfold printBarChart.
  replace (len data <=? 0) with false
    by (symmetry; apply Z.leb_gt; destruct data; [done|unfold len; simpl; lia]).
  by rewrite Hmax, lift_ok_bind, Htop, lift_ok_bind.
Qed.

(** A non-empty table on which the chart does not fail: one bar per entry,
    of [floor(count / scale)] cells for the scale [total / 50]. *)
Lemma printBarChart_bars data total top :
  data <> [] ->
  py_max (snd <$> data) = Ok total ->
  first (sorted_rev (fun tup => Str.len tup.1) data) = Ok top ->
  raised (printBarChart data) = None ->
  exists scale,
    Float.int_div total 50 = Ok scale
    /\ Float.is_zero scale = false
    /\ printBarChart data
       = ((fun i =>
             Bar (i.1 ++ Str.spaces (Z.to_nat (Str.len top.1 - Str.len i.1)))%string
               (Z.to_nat (filledLength i.2 scale)) i.2) <$> data,
          Ok tt).
Proof.
  intros Hne Hmax Htop. rewrite (printBarChart_loop _ _ _ Hne Hmax Htop).
  intros Hok. pose proof (for_each_raised_None _ _ Hok) as Hall.
  exists (SFdiv Float.prec Float.emax (Float.of_int total) (Float.of_int 50)).
  split; [done|]. split.
  - destruct data as [|x rest]; [done|].
    destruct (printBar_inv _ _ _ _ (Hall x (list_elem_of_here _ _)))
      as (scale & [= <-] & Hzero & _).
    done.
  - apply for_each_ok. intros i Hi.
    destruct (printBar_inv _ _ _ _ (Hall i Hi)) as (scale & [= <-] & _ & Heq).
    done.
Qed.



(** The chart does not fail on counts within [2 ** 53] whose largest is
    not 0. *)
Lemma printBarChart_in_range data total :
  data <> [] ->
  py_max (snd <$> data) = Ok total ->
  total <> 0 ->
  (forall x, x ∈ data -> - 2 ^ 53 < x.2 < 2 ^ 53) ->
  raised (printBarChart data) = None.
Proof.
  intros Hne Hmax Ht Hrange.
  destruct (py_max_largest data Hne) as (total' & Hmax' & (y & Hy & Hytotal) & _).
  rewrite Hmax in Hmax'. injection Hmax' as <-.
  destruct (widest_label data Hne) as (top & Htop & _).
  rewrite (printBarChart_loop _ _ _ Hne Hmax Htop).
  apply for_each_no_raise. intros x Hx.
  apply printBar_in_range; [by apply Hrange|done|]. rewrite <- Hytotal. by apply Hrange.
Qed.

(** The chart does not fail on positive counts below [2 ** 53]. *)
Lemma printBarChart_positive data :
  (forall x, x ∈ data -> 0 < x.2 < 2 ^ 53) ->
  raised (printBarChart data) = None.
Proof.
  intros Hpos. destruct (decide (data = [])) as [->|Hne]; [done|].
  destruct (py_max_largest data Hne) as (total & Hmax & (y & Hy & Hytotal) & _).
  apply (printBarChart_in_range _ total Hne Hmax).
  - specialize (Hpos y Hy). lia.
  - intros x Hx. specialize (Hpos x Hx). lia.
Qed.

(** The chart prints the line "Empty data" or bars, whether it fails or
    not. *)
Lemma printBarChart_prints data :
  Forall (fun l => match l with EmptyData | Bar _ _ _ => True | _ => False end)
    (printed (printBarChart data)).
Proof.
  destruct (decide (data = [])) as [->|Hne]; [by repeat constructor|].
  destruct (py_max_largest data Hne) as (total & Hmax & _).
  destruct (widest_label data Hne) as (top & Htop & _).
  rewrite (printBarChart_loop _ _ _ Hne Hmax Htop).
  apply for_each_printed_Forall. intros x.
  eapply Forall_impl; [apply printBar_prints_bars|]. by intros [].
Qed.

(** Whether the chart fails depends on the counts only. *)
Lemma printBarChart_raised_counts data data' :
  snd <$> data = snd <$> data' ->
  raised (printBarChart data) = raised (printBarChart data').
Proof.
  intros Hsnd. destruct (decide (data = [])) as [->|Hne].
  { symmetry in Hsnd. apply fmap_nil_inv in Hsnd as ->. done. }
  assert (Hne' : data' <> []) by (intros ->; by apply fmap_nil_inv in Hsnd).
  destruct (py_max_largest data Hne) as (total & Hmax & _).
  destruct (widest_label data Hne) as (top & Htop & _).
  destruct (widest_label data' Hne') as (top' & Htop' & _).
  rewrite (printBarChart_loop _ _ _ Hne Hmax Htop).
  rewrite Hsnd in Hmax. rewrite (printBarChart_loop _ _ _ Hne' Hmax Htop').
  apply for_each_raised_ext. clear -Hsnd. revert data' Hsnd.
  induction data as [|x data IH]; intros [|y data'] Hsnd; try done.
  injection Hsnd as Hxy Hsnd. constructor; [|by apply IH].
  rewrite Hxy. apply printBar_raised_label.
Qed.

Lemma slice_to_from {A : Type} (n : Z) (l : list A) :
  slice_to n l ++ slice_from n l = l.
Proof. apply firstn_skipn. Qed.

Lemma slice_to_elem_of {A : Type} (n : Z) (l : list A) (x : A) :
  x ∈ slice_to n l -> x ∈ l.
Proof.
  intros Hx. rewrite <- (slice_to_from n l). apply elem_of_app. by left.
Qed.

(** The counts of the ranking of fewer than [2 ** 53] elements. *)
Lemma ranking_in_range {K : Type} `{EqDecision K} (elements : list K) (x : K * Z) :
  len elements < 2 ^ 53 -> x ∈ reduce_and_sort elements -> 0 < x.2 < 2 ^ 53.
Proof.
  intros Hlen Hx. destruct x as [k c].
  apply reduce_and_sort_elem_of in Hx as [Hk ->]. simpl.
  split; [by apply occurrences_pos|].
  unfold occurrences, len in *. pose proof (length_filter (fun y => y = k) elements).
  lia.
Qed.

Lemma slice_to_fmap {A B : Type} (f : A -> B) (n : Z) (l : list A) :
  slice_to n (f <$> l) = f <$> slice_to n l.
Proof. unfold slice_to. by rewrite length_fmap, fmap_take. Qed.

Lemma slice_from_fmap {A B : Type} (f : A -> B) (n : Z) (l : list A) :
  slice_from n (f <$> l) = f <$> slice_from n l.
Proof. unfold slice_from. by rewrite length_fmap, fmap_drop. Qed.

Lemma len_fmap {A B : Type} (f : A -> B) (l : list A) : len (f <$> l) = len l.
Proof. unfold len. by rewrite length_fmap. Qed.

Lemma slice_from_length {A : Type} (n : Z) (l : list A) :
  0 <= n < len l -> len (slice_from n l) = len l - n.
Proof.
  intros Hn. unfold slice_from, slice_index, len in *.
  replace (n <? 0) with false by (symmetry; apply Z.ltb_ge; lia).
  rewrite length_skipn. lia.
Qed.
End BarChartFacts.

(** C4.  The chart computes [floor(count / scale)] for the scale [max / 50]
    on the floats, and the rounded quotient can fall short of the number.
    The table [("A", 10), ("B", 5)] gets the bars of 50 and 25 cells of the
    specification, and the empty table the line "Empty data" alone.  But the
    ranking of seven senders "A", whose one entry holds the largest count
    and is to fill the 50 cells, gets a bar of 49 cells, and the table
    [("A", 14), ("B", 7)] gets bars of 49 and 24 cells where the quotients
    are 50 and 25. *)
Theorem bar_length_departs_from_quotient :
  (Render.printBarChart [("A", 10); ("B", 5)]%string
   = ([Render.Bar "A" 50 10; Render.Bar "B" 25 5], Ok tt)
   /\ Render.spec_bar_length 10 10 50 = 50
   /\ Render.spec_bar_length 5 10 50 = 25)
  /\ Render.printBarChart [] = ([Render.EmptyData], Ok tt)
  /\ (reduce_and_sort (replicate 7 "A"%string) = [("A"%string, 7)]
      /\ Render.printBarChart (slice_to 50 (reduce_and_sort (replicate 7 "A"%string)))
         = ([Render.Bar "A" 49 7], Ok tt)
      /\ Render.spec_bar_length 7 7 50 = 50)
  /\ (Render.printBarChart [("A", 14); ("B", 7)]%string
      = ([Render.Bar "A" 49 14; Render.Bar "B" 24 7], Ok tt)
      /\ Render.spec_bar_length 14 14 50 = 50
      /\ Render.spec_bar_length 7 14 50 = 25).
Proof. split_and!; vm_compute; reflexivity. Qed.




(** ** The sections of the report *)

Section ReportFacts.
Import Render.

Lemma mret_bind {A B : Type} (a : A) (k : A -> io B) : mret a ≫= k = k a.
Proof. unfold mret, io_ret, mbind, io_bind. by destruct (k a). Qed.

Lemma other_lines_print (l : line) (k : unit -> io unit) :
  other_lines (printed (print l ≫= k))
  = (if is_other l then [l] else []) ++ other_lines (printed (k tt)).
Proof.
  rewrite print_bind. unfold printed, other_lines. simpl. by destruct (is_other l).
Qed.

(** The chart prints no line "Other", whether it fails or not. *)
Lemma printBarChart_no_other (data : list (string * Z)) :
  other_lines (printed (printBarChart data)) = [].
Proof.
  pose proof (printBarChart_prints data) as Hall. unfold other_lines.
  induction Hall as [|l out Hl _ IH]; [done|]. simpl. by destruct l.
Qed.

Lemma other_lines_chart (data : list (string * Z)) (k : unit -> io unit) :
  other_lines (printed (printBarChart data ≫= k))
  = match raised (printBarChart data) with
    | None => other_lines (printed (k tt))
    | Some _ => []
    end.
Proof.
  rewrite printed_bind. unfold other_lines at 1.
  rewrite List.filter_app. fold (other_lines (printed (printBarChart data))).
  rewrite printBarChart_no_other. unfold raised.
  by destruct (printBarChart data) as [out [[]|e]].
Qed.

(** The average of the senders' section is computed without failure. *)
Lemma average_bind (data : list (string * Z)) (k : spec_float -> io unit) :
  exists average,
    lift (if len data =? 0 then Ok (Float.of_int 0)
          else Float.int_div (sum (snd <$> data)) (len data)) ≫= k
    = k average.
Proof.
  unfold Float.int_div. destruct (len data =? 0); eexists; by rewrite lift_ok_bind.
Qed.
End ReportFacts.

(** Unfolds a section down to the lines "Other" it prints. *)
Ltac other_lines_of_section Hchart :=
  repeat (rewrite other_lines_print; simpl is_other; cbv iota; rewrite ?app_nil_l);
  rewrite other_lines_chart, Hchart;
  repeat match goal with
         | |- context [if ?c then _ else _] => destruct c
         end;
  repeat (rewrite ?mret_bind;
          rewrite ?other_lines_print; simpl is_other; cbv iota; rewrite ?app_nil_l);
  try reflexivity.

(** C9, as it stands, fails in the sections of the favourites: the table of
    favourite words here has two entries, more than the sample size 1, and
    its section prints no line "Other". *)
Lemma fav_word_section_prints_no_other :
  1 < len [("a", "x", 3); ("b", "y", 2)]%string
  /\ other_lines
       (Render.printed (section_fav_word 1 [("a", "x", 3); ("b", "y", 2)]%string))
     = [].
Proof. split; vm_compute; reflexivity. Qed.

(** C9, amended.  The sections of the senders, the domains, the emojis and
    the words, on a table of positive counts (below [2 ** 53]), print one
    line "Other" if the table has more entries than the sample size and none
    otherwise; the line
    shows the number of the entries behind the sample and the sum of their
    counts.  The sections of the favourite emojis and words print no such
    line. *)
Theorem other_line_of_frequency_sections (demojize : string -> string)
    (size : Z) (data : list (string * Z))
    (Hpos : forall x, x ∈ data -> 0 < x.2 < 2 ^ 53) :
  let beyond := slice_from size data in
  let summary noun :=
    if size <? len data
    then [Render.OtherLine noun (len beyond) (sum (snd <$> beyond))]
    else [] in
  other_lines (Render.printed (section_senders size data)) = summary "member"%string
  /\ other_lines (Render.printed (section_domains size data)) = summary "domain"%string
  /\ other_lines (Render.printed (section_emojis demojize size data))
     = summary "emoji"%string
  /\ other_lines (Render.printed (section_words size data)) = summary "word"%string
  /\ slice_to size data ++ beyond = data
  /\ (0 <= size < len data -> len beyond = len data - size)
  /\ (forall fav : list (string * string * Z),
        other_lines (Render.printed (section_fav_emoji demojize size fav)) = []
        /\ other_lines (Render.printed (section_fav_word size fav)) = []).
Proof.
  intros beyond summary. subst beyond summary. cbv beta.
  assert (Hchart : Render.raised (Render.printBarChart (slice_to size data)) = None).
  { apply printBarChart_positive. intros x Hx%slice_to_elem_of. auto. }
  split_and!.
  - unfold section_senders.
    repeat (rewrite other_lines_print; simpl is_other; cbv iota; rewrite ?app_nil_l).
    match goal with
    | |- context [Render.lift ?r ≫= ?k] =>
        destruct (average_bind data k) as [average ->]
    end.
    other_lines_of_section Hchart.
  - unfold section_domains. other_lines_of_section Hchart.
  - unfold section_emojis. cbv zeta.
    set (f := fun x : string * Z => ((x.1 +:+ " (" +:+ demojize x.1 +:+ ") ")%string, x.2)).
    assert (Hsnd : forall l : list (string * Z), snd <$> (f <$> l) = snd <$> l).
    { intros l. rewrite <- list_fmap_compose. done. }
    assert (Hchart' : Render.raised (Render.printBarChart (slice_to size (f <$> data))) = None).
    { rewrite <- Hchart. apply printBarChart_raised_counts.
      by rewrite slice_to_fmap, Hsnd. }
    rewrite slice_from_fmap, !len_fmap, !Hsnd.
    other_lines_of_section Hchart'.
  - unfold section_words. other_lines_of_section Hchart.
  - apply slice_to_from.
  - apply slice_from_length.
  - intros fav. split.
    + unfold section_fav_emoji. cbv zeta.
      repeat (rewrite other_lines_print; simpl is_other; cbv iota; rewrite ?app_nil_l).
      rewrite other_lines_chart.
      match goal with
      | |- context [Render.raised ?m] => destruct (Render.raised m)
      end; reflexivity.
    + unfold section_fav_word. cbv zeta.
      repeat (rewrite other_lines_print; simpl is_other; cbv iota; rewrite ?app_nil_l).
      rewrite other_lines_chart.
      match goal with
      | |- context [Render.raised ?m] => destruct (Render.raised m)
      end; reflexivity.
Qed.

Lemma other_line_of_frequency_sections_witness :
  other_lines
    (Render.printed (section_senders 1 [("a", 3); ("b", 2); ("c", 1)]%string))
  = [Render.OtherLine "member" 2 3].
Proof.
  assert (Hpos : forall x : string * Z,
             x ∈ [("a", 3); ("b", 2); ("c", 1)]%string -> 0 < x.2 < 2 ^ 53).
  { intros x Hx. repeat (apply elem_of_cons in Hx as [->|Hx]; [simpl; lia|]).
    by apply elem_of_nil in Hx. }
  pose proof (other_line_of_frequency_sections (fun s => s) 1
                [("a", 3); ("b", 2); ("c", 1)]%string Hpos) as [Hsenders _].
  exact Hsenders.
Defined.

(** * Further properties of [main] *)

(** ** The count of the lines *)

Section CountFacts.
Import Parsing.
Implicit Types (c : chat_counter) (l : Chatline) (lines : list Chatline).

Lemma count_lines_app (start_d end_d : option Z) c lines1 lines2 :
  count_lines start_d end_d c (lines1 ++ lines2)
  = rbind (count_lines start_d end_d c lines1)
      (fun c' => count_lines start_d end_d c' lines2).
Proof.
  revert c. induction lines1 as [|l lines1 IH]; intros c; [done|]. simpl.
  destruct (date_filter start_d end_d (timestamp l)) as [keep|e]; [|done]. simpl.
  apply IH.
Qed.

(** The guards on a line with a timestamp, and on any line when no bound is
    given. *)
Lemma date_filter_kept (start_d end_d : option Z) l :
  is_Some (timestamp l) \/ (start_d = None /\ end_d = None) ->
  date_filter start_d end_d (timestamp l) = Ok (kept start_d end_d l).
Proof.
  unfold kept. intros [[t Ht]|[-> ->]].
  - rewrite Ht. apply date_filter_present.
  - by destruct (timestamp l).
Qed.

Lemma count_lines_kept (start_d end_d : option Z) c lines :
  (forall l, l ∈ lines -> is_Some (timestamp l)) \/ (start_d = None /\ end_d = None) ->
  count_lines start_d end_d c lines
  = Ok (foldl count_line c (filter (fun l => kept start_d end_d l = true) lines)).
Proof.
  intros Hts. revert c. induction lines as [|l lines IH]; intros c; [done|]. simpl.
  rewrite date_filter_kept
    by (destruct Hts as [Hts|?]; [left; apply Hts, list_elem_of_here | by right]).
  simpl. rewrite filter_cons.
  rewrite IH
    by (destruct Hts as [Hts|?]; [left; intros ? ?; by apply Hts, list_elem_of_further
                                 | by right]).
  destruct (kept start_d end_d l); [rewrite decide_True by done|rewrite decide_False by done];
    done.
Qed.

(** With a bound given, the first line without a timestamp ends the count. *)
Lemma count_lines_absent (start_d end_d : option Z) c lines :
  start_d <> None \/ end_d <> None ->
  (exists l, l ∈ lines /\ timestamp l = None) ->
  count_lines start_d end_d c lines = Raise TypeError.
Proof.
  intros Hbound. revert c. induction lines as [|l lines IH]; intros c (l0 & Hin & Hnone).
  - by apply elem_of_nil in Hin.
  - simpl. destruct (timestamp l) as [t|] eqn:Ht.
    + rewrite date_filter_present. simpl. apply IH.
      apply elem_of_cons in Hin as [->|Hin]; [congruence|]. by exists l0.
    + rewrite date_filter_absent. destruct start_d, end_d; try done.
      by destruct Hbound.
Qed.
End CountFacts.

Section CounterInvariant.
Import Parsing.
Implicit Types (c : chat_counter) (l : Chatline).

Lemma consistent_empty : consistent empty_counter.
Proof. split_and!; try done; by intros p ?%elem_of_nil. Qed.

Lemma consistent_count_line c l : consistent c -> consistent (count_line c l).
Proof.
  intros (Hw & He & Hsw & Hse). unfold consistent, count_line. simpl.
  destruct (sender l) as [s|]; split_and!.
  - rewrite fmap_app. apply sublist_app; [done|].
    rewrite <- list_fmap_compose. simpl. by rewrite list_fmap_id.
  - rewrite fmap_app. apply sublist_app; [done|].
    rewrite <- list_fmap_compose. simpl. by rewrite list_fmap_id.
  - intros p [Hp|Hp]%elem_of_app; apply elem_of_app; [left; auto|right].
    apply list_elem_of_fmap in Hp as (w & -> & _). apply list_elem_of_here.
  - intros p [Hp|Hp]%elem_of_app; apply elem_of_app; [left; auto|right].
    apply list_elem_of_fmap in Hp as (w & -> & _). apply list_elem_of_here.
  - by apply sublist_inserts_r.
  - by apply sublist_inserts_r.
  - done.
  - done.
Qed.

Lemma consistent_count_lines (start_d end_d : option Z) c c' lines :
  consistent c -> count_lines start_d end_d c lines = Ok c' -> consistent c'.
Proof.
  revert c. induction lines as [|l lines IH]; intros c Hc; simpl.
  - by intros [= <-].
  - destruct (date_filter start_d end_d (timestamp l)) as [[]|e]; simpl; [| |done].
    + apply IH. by apply consistent_count_line.
    + by apply IH.
Qed.

(** What the loop has accumulated after the lines [ls]. *)
Lemma foldl_count_line c (ls : list Chatline) :
  let c' := foldl count_line c ls in
  chat_count c' = chat_count c + len (filter (fun l => kind l = Chat) ls)
  /\ event_count c' = event_count c + len (filter (fun l => kind l = Event) ls)
  /\ deleted_chat_count c'
     = deleted_chat_count c + len (filter (fun l => is_deleted_chat l = true) ls)
  /\ senders c' = senders c ++ omap sender ls
  /\ timestamps c' = timestamps c ++ omap timestamp ls
  /\ all_words c' = all_words c ++ (ls ≫= words)
  /\ all_emojis c' = all_emojis c ++ (ls ≫= emojis)
  /\ all_domains c' = all_domains c ++ (ls ≫= domains)
  /\ fav_word c'
     = fav_word c
       ++ (ls ≫= fun l => match sender l with
                          | Some s => (fun w => (s, w)) <$> words l
                          | None => []
                          end)
  /\ fav_emoji c'
     = fav_emoji c
       ++ (ls ≫= fun l => match sender l with
                          | Some s => (fun w => (s, w)) <$> emojis l
                          | None => []
                          end).
Proof.
  revert c. induction ls as [|l ls IH]; intros c.
  - simpl. unfold len. simpl. rewrite !app_nil_r. split_and!; lia || done.
  - simpl. specialize (IH (count_line c l)). simpl in IH.
    destruct IH as (H1 & H2 & H3 & H4 & H5 & H6 & H7 & H8 & H9 & H10).
    rewrite H1, H2, H3, H4, H5, H6, H7, H8, H9, H10. clear.
    rewrite !filter_cons. unfold count_line, len. simpl.
    split_and!.
    + destruct (kind l); simpl; try rewrite decide_True by done;
        try rewrite decide_False by done; simpl; lia.
    + destruct (kind l); simpl; try rewrite decide_True by done;
        try rewrite decide_False by done; simpl; lia.
    + destruct (is_deleted_chat l); simpl; try rewrite decide_True by done;
        try rewrite decide_False by done; simpl; lia.
    + destruct (sender l); by rewrite <- ?app_assoc.
    + destruct (timestamp l); by rewrite <- ?app_assoc.
    + by rewrite <- app_assoc.
    + by rewrite <- app_assoc.
    + by rewrite <- app_assoc.
    + destruct (sender l); by rewrite <- ?app_assoc.
    + destruct (sender l); by rewrite <- ?app_assoc.
Qed.
End CounterInvariant.

(** X1.  When every line has a timestamp, or no bound is given, the count of
    the lines does not fail, and it has accumulated the lines the guards let
    through, in their order: the counts of the chat, event and deleted
    lines, the senders and timestamps that are present, all words, emojis
    and domains, and a pair per word and per emoji of each line that has a
    sender. *)
Theorem count_accumulates_kept_lines (startDate endDate : option Z)
    (lines : list Parsing.Chatline)
    (Hts : (forall l, l ∈ lines -> is_Some (Parsing.timestamp l))
           \/ (startDate = None /\ endDate = None)) :
  let ls := filter (fun l => kept (Parsing.start_date startDate)
                               (Parsing.end_date endDate) l = true) lines in
  exists c,
    Parsing.parse_and_count startDate endDate lines = Ok c
    /\ Parsing.chat_count c = len (filter (fun l => Parsing.kind l = Parsing.Chat) ls)
    /\ Parsing.event_count c = len (filter (fun l => Parsing.kind l = Parsing.Event) ls)
    /\ Parsing.deleted_chat_count c
       = len (filter (fun l => Parsing.is_deleted_chat l = true) ls)
    /\ Parsing.senders c = omap Parsing.sender ls
    /\ Parsing.timestamps c = omap Parsing.timestamp ls
    /\ Parsing.all_words c = ls ≫= Parsing.words
    /\ Parsing.all_emojis c = ls ≫= Parsing.emojis
    /\ Parsing.all_domains c = ls ≫= Parsing.domains
    /\ Parsing.fav_word c
       = (ls ≫= fun l => match Parsing.sender l with
                         | Some s => (fun w => (s, w)) <$> Parsing.words l
                         | None => []
                         end)
    /\ Parsing.fav_emoji c
       = (ls ≫= fun l => match Parsing.sender l with
                         | Some s => (fun w => (s, w)) <$> Parsing.emojis l
                         | None => []
                         end).
Proof.
  intros ls. unfold Parsing.parse_and_count. rewrite count_lines_kept
    by (destruct Hts as [?|[-> ->]]; [by left | by right]).
  fold ls. eexists. split; [done|].
  pose proof (foldl_count_line Parsing.empty_counter ls) as Hacc.
  cbv zeta in Hacc. simpl in Hacc. exact Hacc.
Qed.

Lemma count_accumulates_kept_lines_witness :
  exists c,
    Parsing.parse_and_count (Some 0) (Some 0)
      [{| Parsing.kind := Parsing.Chat; Parsing.timestamp := Some 5;
          Parsing.sender := Some "A"%string; Parsing.is_deleted_chat := false;
          Parsing.words := ["hi"%string]; Parsing.emojis := [];
          Parsing.domains := [] |};
       {| Parsing.kind := Parsing.Chat; Parsing.timestamp := Some 86400000000;
          Parsing.sender := Some "B"%string; Parsing.is_deleted_chat := false;
          Parsing.words := ["yo"%string]; Parsing.emojis := [];
          Parsing.domains := [] |}] = Ok c
    /\ Parsing.chat_count c = 1 /\ Parsing.senders c = ["A"%string].
Proof.
  edestruct (count_accumulates_kept_lines (Some 0) (Some 0)) as (c & Hc & Hchat & _ & _ & Hs & _);
    [|exists c; split; [exact Hc|split; [exact Hchat|exact Hs]]].
  left. intros l Hl. repeat (apply elem_of_cons in Hl as [->|Hl]; [by eexists|]).
  by apply elem_of_nil in Hl.
Defined.

(** X4.  In the counter of any count that does not fail, the words of the
    (sender, word) pairs are a subsequence of the words counted, the emojis
    of the (sender, emoji) pairs a subsequence of the emojis counted, and
    every sender of a pair is among the senders counted. *)
Theorem counter_is_consistent (startDate endDate : option Z)
    (lines : list Parsing.Chatline) (c : Parsing.chat_counter)
    (Hc : Parsing.parse_and_count startDate endDate lines = Ok c) :
  (snd <$> Parsing.fav_word c) `sublist_of` Parsing.all_words c
  /\ (snd <$> Parsing.fav_emoji c) `sublist_of` Parsing.all_emojis c
  /\ (forall p, p ∈ Parsing.fav_word c -> p.1 ∈ Parsing.senders c)
  /\ (forall p, p ∈ Parsing.fav_emoji c -> p.1 ∈ Parsing.senders c).
Proof. exact (consistent_count_lines _ _ _ _ _ consistent_empty Hc). Qed.

Lemma counter_is_consistent_witness :
  (snd <$> [("A", "hi")]%string) `sublist_of` ["hi"; "there"]%string.
Proof.
  apply (counter_is_consistent None None
           [{| Parsing.kind := Parsing.Chat; Parsing.timestamp := None;
               Parsing.sender := Some "A"%string; Parsing.is_deleted_chat := false;
               Parsing.words := ["hi"%string]; Parsing.emojis := [];
               Parsing.domains := [] |};
            {| Parsing.kind := Parsing.Other; Parsing.timestamp := None;
               Parsing.sender := None; Parsing.is_deleted_chat := false;
               Parsing.words := ["there"%string]; Parsing.emojis := [];
               Parsing.domains := [] |}]
           {| Parsing.chat_count := 1; Parsing.deleted_chat_count := 0;
              Parsing.event_count := 0; Parsing.senders := ["A"%string];
              Parsing.timestamps := []; Parsing.all_words := ["hi"; "there"]%string;
              Parsing.all_domains := []; Parsing.all_emojis := [];
              Parsing.fav_emoji := []; Parsing.fav_word := [("A", "hi")]%string |}).
  reflexivity.
Defined.

(** X2.  With a start or an end date given, the count of the lines fails
    exactly when some line has no timestamp, and the failure is a
    [TypeError]. *)
Theorem count_fails_on_absent_timestamp (startDate endDate : option Z)
    (lines : list Parsing.Chatline)
    (Hbound : startDate <> None \/ endDate <> None) :
  (Parsing.parse_and_count startDate endDate lines = Raise TypeError
   <-> exists l, l ∈ lines /\ Parsing.timestamp l = None)
  /\ (forall e, Parsing.parse_and_count startDate endDate lines = Raise e ->
                e = TypeError).
Proof.
  assert (Hbound' : Parsing.start_date startDate <> None
                    \/ Parsing.end_date endDate <> None).
  { destruct Hbound as [H|H]; [left|right]; by destruct startDate, endDate. }
  assert (Hcases : (exists l, l ∈ lines /\ Parsing.timestamp l = None)
                   \/ (forall l, l ∈ lines -> is_Some (Parsing.timestamp l))).
  { destruct (decide (Exists (fun l => Parsing.timestamp l = None) lines)) as [Hex|Hno].
    - left. by apply Exists_exists in Hex.
    - right. intros l Hl. destruct (Parsing.timestamp l) eqn:Ht; [by eexists|].
      exfalso. apply Hno, Exists_exists. by exists l. }
  unfold Parsing.parse_and_count. destruct Hcases as [Hex|Hall].
  - rewrite (count_lines_absent _ _ _ _ Hbound' Hex). split; [done|]. by intros e [= <-].
  - rewrite count_lines_kept by by left. split; [|done]. split; [done|].
    intros (l & Hl & Hnone). destruct (Hall l Hl) as [t Ht]. congruence.
Qed.

Lemma count_fails_on_absent_timestamp_witness :
  Parsing.parse_and_count (Some 0) None
    [{| Parsing.kind := Parsing.Other; Parsing.timestamp := None;
        Parsing.sender := None; Parsing.is_deleted_chat := false;
        Parsing.words := []; Parsing.emojis := []; Parsing.domains := [] |}]
  = Raise TypeError.
Proof.
  apply count_fails_on_absent_timestamp; [by left|].
  eexists. split; [apply list_elem_of_here|done].
Defined.

(** X3.  On a timestamp of whole seconds the two guards are the inclusive
    window of days: the line is counted exactly when its day is not before
    the start date and not after the end date. *)
Theorem window_is_inclusive_on_whole_seconds (startDate endDate : option Z) (t : Z)
    (Hsec : t mod 1000000 = 0) :
  Parsing.date_filter (Parsing.start_date startDate) (Parsing.end_date endDate) (Some t)
  = Ok (match startDate with Some s => s <=? day_of t | None => true end
        && match endDate with Some e => day_of t <=? e | None => true end).
Proof.
  rewrite date_filter_present. f_equal. unfold day_of, Parsing.microseconds_per_day.
  pose proof (Z.div_mod t 86400000000 ltac:(lia)) as Hdiv.
  pose proof (Z.mod_pos_bound t 86400000000 ltac:(lia)) as Hmod.
  pose proof (Z.div_mod t 1000000 ltac:(lia)) as Hdiv'.
  rewrite Hsec in Hdiv'.
  set (q := t / 86400000000) in *. set (r := t mod 86400000000) in *.
  set (k := t / 1000000) in *.
  f_equal.
  - destruct startDate as [s|]; [|done]. simpl.
    unfold Parsing.parse, Parsing.microseconds_per_day.
    destruct (Z.leb_spec (s * 86400000000) t), (Z.leb_spec s q); try done; lia.
  - destruct endDate as [e|]; [|done]. simpl.
    unfold Parsing.parse, Parsing.timedelta, Parsing.microseconds_per_day.
    destruct (Z.ltb_spec t (e * 86400000000 + (1 * 86400000000 + -1))),
      (Z.leb_spec q e); try done; lia.
Qed.

Lemma window_is_inclusive_on_whole_seconds_witness :
  Parsing.date_filter (Parsing.start_date (Some 1)) (Parsing.end_date (Some 1))
    (Some (2 * 86400000000 - 1000000)) = Ok true.
Proof. by rewrite window_is_inclusive_on_whole_seconds. Defined.

(** ** More on the ranking *)

Section RankMore.
Context {K : Type} `{EqDecision K}.
Implicit Types (data : list K) (table : list (K * Z)).

Lemma dict_get_app_fresh (d : list (K * Z)) (k : K) (v : Z) :
  k ∉ keys d -> dict_get (d ++ [(k, v)]) k = Some v.
Proof.
  unfold keys. induction d as [|[k' v'] d IH]; simpl; intros Hk.
  - by rewrite decide_True.
  - apply not_elem_of_cons in Hk as [Hne Hk]. rewrite decide_False by done. auto.
Qed.

Lemma dict_set_app_last (d : list (K * Z)) (k : K) (v v' : Z) :
  k ∉ keys d -> dict_set (d ++ [(k, v)]) k v' = d ++ [(k, v')].
Proof.
  unfold keys. induction d as [|[k0 v0] d IH]; simpl; intros Hk.
  - by rewrite decide_True.
  - apply not_elem_of_cons in Hk as [Hne Hk]. rewrite decide_False by done.
    by rewrite IH.
Qed.

(** Counting a key that is new, [n + 1] times in a row. *)
Lemma Counter_app_replicate data (k : K) (n : nat) :
  k ∉ data ->
  Counter (data ++ replicate (S n) k) = Counter data ++ [(k, Z.of_nat (S n))].
Proof.
  intros Hk. assert (Hkeys : k ∉ keys (Counter data)) by by rewrite Counter_keys.
  induction n as [|n IH].
  - simpl. rewrite Counter_snoc.
    assert (Hg : dict_get (Counter data) k = None) by by apply dict_get_None.
    rewrite Hg. simpl. by rewrite dict_set_fresh.
  - rewrite replicate_S_end, app_assoc, Counter_snoc, IH.
    rewrite dict_get_app_fresh by done. simpl.
    rewrite dict_set_app_last by done. do 3 f_equal. lia.
Qed.

(** Counting the multiset of a table gives the table back. *)
Lemma Counter_expand table :
  NoDup (keys table) -> (forall x, x ∈ table -> 0 < x.2) ->
  Counter (expand table) = table.
Proof.
  induction table as [|[k c] table IH] using rev_ind; intros Hnd Hpos; [done|].
  unfold keys in Hnd. rewrite fmap_app in Hnd. apply NoDup_app in Hnd as (Hnd & Hk & _).
  unfold expand. rewrite bind_app. simpl. rewrite app_nil_r.
  fold (expand table).
  assert (Hc : 0 < c) by (apply (Hpos (k, c)), elem_of_app; right; apply list_elem_of_here).
  destruct (Z.to_nat c) as [|n] eqn:Hn; [lia|].
  rewrite Counter_app_replicate.
  - rewrite IH; [do 3 f_equal; lia|done|].
    intros x Hx. apply Hpos, elem_of_app. by left.
  - intros (x & Hkx & Hx)%list_elem_of_bind.
    apply elem_of_replicate in Hkx as [-> _].
    apply (Hk x.1); [by apply list_elem_of_fmap_2|]. apply list_elem_of_here.
Qed.

(** Sorting a list that descends already changes nothing. *)
Lemma sorted_rev_sorted_id {A : Type} (key : A -> Z) (l : list A) :
  StronglySorted (fun a b => key b <= key a) l -> sorted_rev key l = l.
Proof.
  induction 1 as [|x l Hs IH Hx]; [done|]. simpl. rewrite IH.
  destruct l as [|y l]; [done|]. simpl.
  apply Forall_cons in Hx as [Hy _].
  by replace (key x <? key y) with false by (symmetry; apply Z.ltb_ge; lia).
Qed.

Lemma occurrences_Permutation data data' (k : K) :
  data ≡ₚ data' -> occurrences k data = occurrences k data'.
Proof. intros Hp. unfold occurrences, len. by rewrite Hp. Qed.
End RankMore.

(** X5.  The ranking of the multiset that a ranking stands for (every key
    repeated as often as its count) is that ranking again. *)
Theorem rank_of_expanded_ranking {K : Type} `{EqDecision K} (data : list K) :
  reduce_and_sort (expand (reduce_and_sort data)) = reduce_and_sort data.
Proof.
  rewrite (reduce_and_sort_unfold (expand _)), Counter_expand.
  - apply sorted_rev_sorted_id, reduce_and_sort_ranked.
  - apply reduce_and_sort_NoDup.
  - pose proof (reduce_and_sort_positive data) as Hpos.
    by rewrite Forall_forall in Hpos.
Qed.

(** X6.  The ranking of a list and of a reordering of it hold the same
    pairs, and the same counts at the same ranks: the order of the input
    decides the order of the keys of one count only. *)
Theorem rank_of_reordered_input {K : Type} `{EqDecision K} (data data' : list K)
    (Hperm : data ≡ₚ data') :
  reduce_and_sort data ≡ₚ reduce_and_sort data'
  /\ snd <$> reduce_and_sort data = snd <$> reduce_and_sort data'.
Proof.
  assert (Hp : reduce_and_sort data ≡ₚ reduce_and_sort data').
  { apply NoDup_Permutation.
    - eapply NoDup_fmap_1, reduce_and_sort_NoDup.
    - eapply NoDup_fmap_1, reduce_and_sort_NoDup.
    - intros [k c]. rewrite !reduce_and_sort_elem_of.
      rewrite (occurrences_Permutation _ _ _ Hperm).
      assert (Hin : k ∈ data <-> k ∈ data') by by rewrite Hperm.
      tauto. }
  split; [done|].
  assert (Hsorted : forall l : list (K * Z),
             ranked l -> StronglySorted (fun a b => b <= a) (snd <$> l)).
  { induction 1 as [|x l Hs IH Hx]; csimpl; constructor; [done|].
    by apply Forall_fmap. }
  pose proof (Hsorted _ (reduce_and_sort_ranked data)) as Hs1.
  pose proof (Hsorted _ (reduce_and_sort_ranked data')) as Hs2.
  assert (Hpc : snd <$> reduce_and_sort data ≡ₚ snd <$> reduce_and_sort data')
    by by rewrite Hp.
  revert Hs1 Hs2 Hpc. generalize (snd <$> reduce_and_sort data).
  generalize (snd <$> reduce_and_sort data'). clear.
  intros l2 l1. revert l2. induction l1 as [|x l1 IH]; intros l2 Hs1 Hs2 Hpc.
  - by apply Permutation_nil in Hpc.
  - destruct l2 as [|y l2]; [symmetry in Hpc; by apply Permutation_nil in Hpc|].
    apply StronglySorted_inv in Hs1 as [Hs1 Hx].
    apply StronglySorted_inv in Hs2 as [Hs2 Hy].
    rewrite Forall_forall in Hx, Hy.
    assert (x = y) as <-.
    { assert (Hxin : x ∈ y :: l2) by (rewrite <- Hpc; apply list_elem_of_here).
      assert (Hyin : y ∈ x :: l1) by (rewrite Hpc; apply list_elem_of_here).
      apply elem_of_cons in Hxin as [?|Hxin]; [done|].
      apply elem_of_cons in Hyin as [?|Hyin]; [done|].
      specialize (Hx y Hyin). specialize (Hy x Hxin). lia. }
    f_equal. apply IH; [done|done|]. by apply (Permutation_cons_inv (a := x)).
Qed.

Lemma rank_of_reordered_input_witness :
  snd <$> reduce_and_sort ["a"; "b"; "b"]%string
  = snd <$> reduce_and_sort ["b"; "a"; "b"]%string.
Proof.
  apply (rank_of_reordered_input ["a"; "b"; "b"]%string ["b"; "a"; "b"]%string).
  apply Permutation_swap.
Defined.

(** ** More on the favourites *)

Section FavMore.
Context {K1 K2 : Type} `{EqDecision K1} `{EqDecision K2}.
Implicit Types (data : list (K1 * K2 * Z)) (exist : list K1) (x i : K1 * K2 * Z).

Lemma ranked_app_cons data1 data2 x :
  ranked (data1 ++ x :: data2) -> forall y, y ∈ data2 -> y.2 <= x.2.
Proof.
  unfold ranked. induction data1 as [|z data1 IH]; simpl; intros Hs y Hy.
  - apply StronglySorted_inv in Hs as [_ Hx]. rewrite Forall_forall in Hx. by apply Hx.
  - apply StronglySorted_inv in Hs as [Hs _]. by apply IH.
Qed.

(** A table of distinct first keys and positive counts is kept whole. *)
Lemma fav_loop_fixed data exist :
  NoDup ((fun e => e.1.1) <$> data) ->
  (forall x, x ∈ data -> 0 < x.2) ->
  (forall x, x ∈ data -> x.1.1 ∉ exist) ->
  fav_loop data exist [] = data.
Proof.
  revert exist. induction data as [|i rest IH]; intros exist Hnd Hpos Hnew; [done|].
  rewrite fav_loop_cons. csimpl in Hnd. apply NoDup_cons in Hnd as [Hi Hnd].
  replace ((0 <? i.2) && negb (bool_decide (i.1.1 ∈ exist))) with true.
  - f_equal. apply IH; [done| |].
    + intros x Hx. apply Hpos. by apply list_elem_of_further.
    + intros x Hx [Hin|Heq%list_elem_of_singleton]%elem_of_app.
      * by apply (Hnew x); [apply list_elem_of_further|].
      * apply Hi. rewrite <- Heq. by apply (list_elem_of_fmap_2 (fun e => e.1.1)).
  - symmetry. apply fav_guard_true. split.
    + apply Hpos, list_elem_of_here.
    + apply Hnew, list_elem_of_here.
Qed.

Lemma occurrences_absent {K : Type} `{EqDecision K} (k : K) (l : list K) :
  k ∉ l -> occurrences k l = 0.
Proof.
  intros Hk. unfold occurrences, len.
  destruct (filter (fun y => y = k) l) as [|y l'] eqn:Hf; [done|].
  assert (Hy : y ∈ filter (fun y => y = k) l) by (rewrite Hf; apply list_elem_of_here).
  apply list_elem_of_filter in Hy as [-> Hy]. done.
Qed.
End FavMore.

(** X7.  The favourites of a list of pairs, the first pair of each first key
    in the ranking of the pairs: every entry is a pair of the list with the
    number of its occurrences, no other pair of its first key occurs more
    often, and every first key of the list has exactly one entry. *)
Theorem favourite_is_most_frequent {K1 K2 : Type} `{EqDecision K1} `{EqDecision K2}
    (pairs : list (K1 * K2)) :
  let favourites := reduce_fav_item (reduce_and_sort pairs) in
  (forall s e c,
     (s, e, c) ∈ favourites ->
     (s, e) ∈ pairs /\ c = occurrences (s, e) pairs
     /\ forall e', occurrences (s, e') pairs <= c)
  /\ (forall s e, (s, e) ∈ pairs -> exists e' c, (s, e', c) ∈ favourites)
  /\ NoDup ((fun x => x.1.1) <$> favourites).
Proof.
  intros favourites. subst favourites. unfold reduce_fav_item. split_and!.
  - intros s e c Hin.
    pose proof (fav_loop_first _ _ _ Hin) as (l1 & l2 & Heq & Hfirst).
    assert (Hrank : (s, e, c) ∈ reduce_and_sort pairs).
    { eapply elem_of_sublist; [exact Hin|apply fav_loop_sublist]. }
    apply reduce_and_sort_elem_of in Hrank as [Hpair Hc].
    split_and!; [done|done|]. intros e'.
    destruct (decide ((s, e') ∈ pairs)) as [Hin'|Hout].
    + assert (Hrank' : (s, e', occurrences (s, e') pairs) ∈ reduce_and_sort pairs)
        by by apply reduce_and_sort_elem_of.
      rewrite Heq in Hrank'.
      apply elem_of_app in Hrank' as [Hl1|[Hsame|Hl2]%elem_of_cons].
      * specialize (Hfirst _ Hl1 eq_refl). simpl in Hfirst.
        pose proof (occurrences_pos pairs (s, e') Hin'). lia.
      * injection Hsame as _ ->. lia.
      * pose proof (reduce_and_sort_ranked pairs) as Hr. rewrite Heq in Hr.
        apply (ranked_app_cons _ _ _ Hr) in Hl2. done.
    + rewrite occurrences_absent by done. rewrite Hc.
      apply occurrences_nonneg.
  - intros s e Hpair.
    assert (Hrank : (s, e, occurrences (s, e) pairs) ∈ reduce_and_sort pairs)
      by by apply reduce_and_sort_elem_of.
    pose proof (fav_loop_complete (reduce_and_sort pairs) [] _ Hrank) as Hkey.
    simpl in Hkey. specialize (Hkey (occurrences_pos _ _ Hpair)).
    apply list_elem_of_fmap in Hkey as ([[s' e'] c] & Hs & Hin); [|by intros ?%elem_of_nil].
    simpl in Hs. subst s'. by exists e', c.
  - apply fav_loop_NoDup.
Qed.

(** X8.  Reducing a table of favourites again changes nothing. *)
Theorem favourites_of_favourites {K1 K2 : Type} `{EqDecision K1}
    (data : list (K1 * K2 * Z)) :
  reduce_fav_item (reduce_fav_item data) = reduce_fav_item data.
Proof.
  unfold reduce_fav_item. apply fav_loop_fixed.
  - apply fav_loop_NoDup.
  - intros x Hx. by apply fav_loop_emitted in Hx as [? _].
  - intros x _. by intros ?%elem_of_nil.
Qed.

(** ** The favourite words and the word table *)

Section CrossTables.
Variables (isalnum isnumeric : string -> bool) (lower : string -> string).
Variable stop_words : list string.

Lemma filter_sublist_impl {A : Type} (P Q : A -> Prop)
    `{!forall a, Decision (P a)} `{!forall a, Decision (Q a)} (l : list A) :
  (forall a, P a -> Q a) -> filter P l `sublist_of` filter Q l.
Proof.
  intros HPQ. induction l as [|a l IH]; [done|]. rewrite !filter_cons.
  destruct (decide (P a)) as [HP|HP].
  - rewrite decide_True by auto. by constructor.
  - destruct (decide (Q a)); [by constructor|done].
Qed.

(** The occurrences of a pair are at most those of its second component. *)
Lemma occurrences_pair_snd {S : Type} `{EqDecision S} (s : S) (w : string)
    (pairs : list (S * string)) :
  occurrences (s, w) pairs <= occurrences w (snd <$> pairs).
Proof.
  unfold occurrences, len. apply inj_le.
  induction pairs as [|[s' w'] pairs IH]; [done|]. csimpl. rewrite !filter_cons.
  destruct (decide ((s', w') = (s, w))) as [[= -> ->]|Hne].
  - rewrite decide_True by done. simpl. lia.
  - simpl. destruct (decide (w' = w)); simpl; lia.
Qed.

Lemma occurrences_sublist {K : Type} `{EqDecision K} (k : K) (l1 l2 : list K) :
  l1 `sublist_of` l2 -> occurrences k l1 <= occurrences k l2.
Proof.
  intros Hsub. unfold occurrences, len. apply inj_le, sublist_length.
  by apply filter_sublist_mono.
Qed.
End CrossTables.

(** X9.  After a count that does not fail, every favourite word of a sender
    is, lower-cased, a key of the word table, and its count as a favourite is
    at most the count of that key. *)
Theorem favourite_word_is_in_word_table
    (isalnum isnumeric : string -> bool) (lower : string -> string)
    (stop_words : list string) (startDate endDate : option Z)
    (lines : list Parsing.Chatline) (c : Parsing.chat_counter)
    (Hc : Parsing.parse_and_count startDate endDate lines = Ok c) :
  forall s w n,
    (s, w, n) ∈ fav_word_table isalnum isnumeric lower stop_words (Parsing.fav_word c) ->
    exists m,
      (lower w, m) ∈ words_table isalnum isnumeric lower stop_words (Parsing.all_words c)
      /\ n <= m.
Proof.
  intros s w n Hin.
  destruct (consistent_count_lines _ _ _ _ _ consistent_empty Hc) as (Hsub & _).
  assert (Hrank : (s, w, n) ∈ fav_word_ranking isalnum isnumeric lower stop_words
                                (Parsing.fav_word c)).
  { eapply elem_of_sublist; [exact Hin|apply fav_loop_sublist]. }
  unfold fav_word_ranking in Hrank.
  rewrite reduce_and_sort_elem_of, fav_word_pairs_filter, list_elem_of_filter in Hrank.
  destruct Hrank as [[Hcounted Hpair] ->]. simpl in Hcounted.
  rewrite (occurrences_filter (fun x => counted _ _ _ _ x.2)) by done.
  assert (Hw : w ∈ Parsing.all_words c).
  { eapply elem_of_sublist; [|exact Hsub]. by apply (list_elem_of_fmap_2 snd) in Hpair. }
  eexists. split.
  - unfold words_table.
    rewrite reduce_and_sort_elem_of, reduce_and_filter_words_filter.
    split; [|reflexivity]. apply list_elem_of_fmap. exists w. split; [done|].
    by apply list_elem_of_filter.
  - rewrite occurrences_lowered.
    etrans; [apply occurrences_pair_snd|].
    etrans; [apply (occurrences_sublist _ _ _ Hsub)|].
    unfold occurrences, len. apply inj_le, sublist_length, filter_sublist_impl.
    by intros a ->.
Qed.

Lemma favourite_word_is_in_word_table_witness :
  exists m,
    ("hello"%string, m)
      ∈ words_table Str.isalnum Str.isnumeric Str.lower [] ["Hello"; "hello"]%string
    /\ 1 <= m.
Proof.
  apply (favourite_word_is_in_word_table Str.isalnum Str.isnumeric Str.lower []
           None None
           [{| Parsing.kind := Parsing.Chat; Parsing.timestamp := None;
               Parsing.sender := Some "A"%string; Parsing.is_deleted_chat := false;
               Parsing.words := ["Hello"%string]; Parsing.emojis := [];
               Parsing.domains := [] |};
            {| Parsing.kind := Parsing.Other; Parsing.timestamp := None;
               Parsing.sender := None; Parsing.is_deleted_chat := false;
               Parsing.words := ["hello"%string]; Parsing.emojis := [];
               Parsing.domains := [] |}]
           {| Parsing.chat_count := 1; Parsing.deleted_chat_count := 0;
              Parsing.event_count := 0; Parsing.senders := ["A"%string];
              Parsing.timestamps := []; Parsing.all_words := ["Hello"; "hello"]%string;
              Parsing.all_domains := []; Parsing.all_emojis := [];
              Parsing.fav_emoji := []; Parsing.fav_word := [("A", "Hello")]%string |}
           eq_refl "A"%string "Hello"%string 1).
  vm_compute. apply list_elem_of_here.
Defined.

(** ** More on the heat map *)

Section HeatmapMore.
Import Render.

Lemma dict_of_NoDup {K V : Type} `{EqDecision K} (d : list (K * V)) :
  NoDup (keys d) -> dict_of d = d.
Proof.
  intros Hnd. rewrite <- (dict_of_items d Hnd) at 2. unfold keys, values.
  by rewrite zip_fst_snd.
Qed.

(** Looking a key up in a ranking. *)
Lemma reduce_and_sort_get {K : Type} `{EqDecision K} (data : list K) (k : K) :
  dict_get (reduce_and_sort data) k
  = if decide (k ∈ data) then Some (occurrences k data) else None.
Proof.
  destruct (decide (k ∈ data)) as [Hin|Hout].
  - apply elem_of_dict_get; [apply reduce_and_sort_NoDup|].
    by apply reduce_and_sort_elem_of.
  - apply dict_get_None. intros ([k' c] & -> & Hin)%list_elem_of_fmap.
    apply reduce_and_sort_elem_of in Hin as [Hin _]. done.
Qed.

Lemma cell_NoData (data : list (string * string * Z)) (ticks : list spec_float)
    (day hour : string) :
  cell data ticks day hour = NoData <-> dict_get data (day, hour) = None.
Proof.
  unfold cell. destruct (dict_get data (day, hour)) as [c|]; [|done].
  split; [|done]. by repeat case_match.
Qed.

(** The last entry of a ranked table has the least count. *)
Lemma ranked_last {K : Type} (table : list (K * Z)) (s : K * Z) :
  ranked table -> last table = Some s -> forall x, x ∈ table -> s.2 <= x.2.
Proof.
  unfold ranked. induction 1 as [|y l Hs IH Hy]; [done|]. intros Hlast x Hx.
  rewrite Forall_forall in Hy. destruct l as [|z l].
  - injection Hlast as <-. apply list_elem_of_singleton in Hx as ->. lia.
  - rewrite last_cons_cons in Hlast. specialize (IH Hlast).
    apply elem_of_cons in Hx as [->|Hx]; [|by apply IH].
    apply Hy. by apply last_Some_elem_of.
Qed.

Lemma ranked_first {K : Type} (table : list (K * Z)) (b : K * Z) :
  ranked table -> head table = Some b -> forall x, x ∈ table -> x.2 <= b.2.
Proof.
  unfold ranked. destruct 1 as [|y l Hs Hy]; [done|]. intros [= <-] x Hx.
  rewrite Forall_forall in Hy. apply elem_of_cons in Hx as [->|Hx]; [lia|]. by apply Hy.
Qed.
End HeatmapMore.

(** X10.  The mapping the heat map is drawn from, the dictionary of the
    ranking of the buckets of the timestamps, binds a bucket to the number
    of the timestamps in it, and a cell shows the "no data" glyph exactly
    when no timestamp is in its bucket. *)
Theorem heatmap_cell_counts_its_bucket (buckets : list (string * string))
    (ticks : list spec_float) (day hour : string) :
  dict_get (dict_of (reduce_and_sort buckets)) (day, hour)
  = (if decide ((day, hour) ∈ buckets)
     then Some (occurrences (day, hour) buckets) else None)
  /\ (Render.cell (dict_of (reduce_and_sort buckets)) ticks day hour = Render.NoData
      <-> (day, hour) ∉ buckets).
Proof.
  rewrite dict_of_NoDup by apply reduce_and_sort_NoDup.
  split; [apply reduce_and_sort_get|].
  rewrite cell_NoData, reduce_and_sort_get. by case_decide.
Qed.

(** X11.  On the ranking of a non-empty list of buckets the section of
    the heat map does not fail and prints its title, then as "Most Busy" the
    first entry of the ranking, whose count is the largest of the table,
    then as "Most Silence" the last entry, whose count is the least, then
    the legend and the calendar. *)
Theorem heatmap_shows_busiest_and_calmest (buckets : list (string * string))
    (Hne : buckets <> []) :
  let table := reduce_and_sort buckets in
  exists busy calm,
    head table = Some busy
    /\ last table = Some calm
    /\ (forall x, x ∈ table -> calm.2 <= x.2 <= busy.2)
    /\ section_heatmap table
       = ([Render.Rule; Render.Title "Chat Activity Heatmap"; Render.Rule;
           Render.MostBusy busy.1.1 (busy.1.2 ++ ":00") busy.2;
           Render.MostSilence calm.1.1 (calm.1.2 ++ ":00") calm.2;
           Render.Blank; Render.Dashes; Render.Text "X: Days";
           Render.Text "Y: Hours"; Render.Dashes; Render.Legend; Render.Blank]
          ++ Render.printed (Render.printCalendar (dict_of table)),
          Ok tt).
Proof.
  intros table. pose proof (reduce_and_sort_ranked buckets) as Hranked.
  fold table in Hranked.
  assert (Hin : exists x, x ∈ table).
  { destruct buckets as [|k buckets]; [done|].
    exists (k, occurrences k (k :: buckets)). apply reduce_and_sort_elem_of.
    split; [apply list_elem_of_here|done]. }
  clearbody table. destruct table as [|busy rest].
  { destruct Hin as [x Hx]. by apply elem_of_nil in Hx. }
  destruct (last (busy :: rest)) as [calm|] eqn:Hlast; [|by apply last_None in Hlast].
  exists busy, calm. split_and!; [done|done| |].
  - intros x Hx. split; [by apply (ranked_last _ _ Hranked)|].
    by apply (ranked_first _ _ Hranked).
  - destruct (max_val_largest (dict_of (busy :: rest))) as (m & Hm & _).
    rewrite (printCalendar_rows _ m Hm).
    unfold section_heatmap. rewrite (printCalendar_rows _ m Hm).
    replace (0 <? len (busy :: rest)) with true
      by (symmetry; apply Z.ltb_lt; unfold len; simpl; lia).
    unfold Render.first, Render.final. rewrite Hlast. reflexivity.
Qed.

Lemma heatmap_shows_busiest_and_calmest_witness :
  exists busy calm : string * string * Z,
    head (reduce_and_sort [("Monday", "09"); ("Tuesday", "10")]%string) = Some busy
    /\ last (reduce_and_sort [("Monday", "09"); ("Tuesday", "10")]%string) = Some calm
    /\ calm.2 <= busy.2.
Proof.
  destruct (heatmap_shows_busiest_and_calmest
              [("Monday", "09"); ("Tuesday", "10")]%string)
    as (busy & calm & Hb & Hc & Hall & _); [discriminate|].
  exists busy, calm. split; [exact Hb|]. split; [exact Hc|].
  destruct (Hall busy) as [Hle _]; [|exact Hle].
  apply head_Some_elem_of. exact Hb.
Defined.

(** ** More on the bar chart and the sections *)

Section ChartMore.
Import Render.

Lemma str_len_append (s1 s2 : string) :
  Str.len (s1 ++ s2)%string = Str.len s1 + Str.len s2.
Proof.
  unfold Str.len. induction s1 as [|a s1 IH]; simpl; [done|].
  change (String.length (s1 +:+ s2)) with (String.length (s1 ++ s2)%string). lia.
Qed.

Lemma str_len_spaces (n : nat) : Str.len (Str.spaces n) = Z.of_nat n.
Proof. unfold Str.len. induction n as [|n IH]; simpl; lia. Qed.

Lemma reduce_and_sort_sum {K : Type} `{EqDecision K} (data : list K) :
  sum (snd <$> reduce_and_sort data) = len data.
Proof.
  rewrite <- Counter_sum. apply sum_Permutation. unfold values.
  by rewrite reduce_and_sort_Permutation.
Qed.

Lemma sum_slices (size : Z) (l : list (string * Z)) :
  sum (snd <$> slice_to size l) + sum (snd <$> slice_from size l) = sum (snd <$> l).
Proof. by rewrite <- sum_app, <- fmap_app, slice_to_from. Qed.

Lemma raised_print {B : Type} (l : line) (k : unit -> io B) :
  raised (print l ≫= k) = raised (k tt).
Proof. by rewrite print_bind. Qed.

Lemma raised_seq {B : Type} (m : io unit) (k : unit -> io B) :
  raised m = None -> raised (m ≫= k) = raised (k tt).
Proof.
  rewrite raised_bind. unfold raised at 1. by destruct m as [out [[]|e]].
Qed.

Lemma printed_seq {B : Type} (m : io unit) (k : unit -> io B) :
  raised m = None -> printed (m ≫= k) = printed m ++ printed (k tt).
Proof.
  rewrite printed_bind. unfold raised. by destruct m as [out [[]|e]].
Qed.
End ChartMore.

(** X12.  On a non-empty table of positive counts (below [2 ** 53]) every
    bar is printed for an entry of the table, under the label of the entry
    followed by spaces, and all labels printed have one width, that of the
    widest label of the table. *)
Theorem bar_labels_are_aligned (data : list (string * Z))
    (Hne : data <> []) (Hpos : forall x, x ∈ data -> 0 < x.2 < 2 ^ 53) :
  exists width,
    (forall x, x ∈ data -> Str.len x.1 <= width)
    /\ (exists x, x ∈ data /\ Str.len x.1 = width)
    /\ forall label cells value,
         Render.Bar label cells value ∈ Render.printed (Render.printBarChart data) ->
         Str.len label = width
         /\ exists x n, x ∈ data /\ x.2 = value /\ label = (x.1 ++ Str.spaces n)%string.
Proof.
  destruct (py_max_largest data Hne) as (total & Hmax & _).
  destruct (widest_label data Hne) as (top & Htop & Hin & Hwide).
  pose proof (printBarChart_positive data Hpos) as Hok.
  destruct (printBarChart_bars _ _ _ Hne Hmax Htop Hok) as (scale & _ & _ & ->).
  exists (Str.len top.1). split_and!; [done|by exists top|].
  intros label cells value (x & [= -> -> ->] & Hx)%list_elem_of_fmap. split.
  - rewrite str_len_append, str_len_spaces. specialize (Hwide x Hx). lia.
  - by eexists x, _.
Qed.

Lemma bar_labels_are_aligned_witness :
  exists width,
    forall label cells value,
      Render.Bar label cells value
        ∈ Render.printed (Render.printBarChart [("A", 10); ("Bcd", 5)]%string) ->
      Str.len label = width.
Proof.
  destruct (bar_labels_are_aligned [("A", 10); ("Bcd", 5)]%string)
    as (width & _ & _ & Hall).
  - discriminate.
  - intros x Hx. repeat (apply elem_of_cons in Hx as [->|Hx]; [simpl; lia|]).
    by apply elem_of_nil in Hx.
  - exists width. intros label cells value Hin.
    destruct (Hall label cells value Hin) as [Hlen _]. exact Hlen.
Defined.

(** X13.  The section of the senders, on the ranking of fewer than
    [2 ** 53] senders, does not fail and prints its head, the chart of the
    first entries, the summary of the others if there are any, and two
    blank lines.  "Active Sender" is the number of the entries, "Total Chat"
    the number of the senders counted, and the counts of the chart and of
    the summary add up to it. *)
Theorem senders_section_accounts_for_all (senders : list string) (size : Z)
    (Hlen : len senders < 2 ^ 53) :
  let data := reduce_and_sort senders in
  exists average,
    section_senders size data
    = ([Render.Rule; Render.Title "Chat Count by Sender"; Render.Rule;
        Render.Stat "Active Sender" (len data);
        Render.Stat "Total Chat" (len senders);
        Render.Average average; Render.Blank]
       ++ Render.printed (Render.printBarChart (slice_to size data))
       ++ (if size <? len data
           then [Render.Dashes;
                 Render.OtherLine "member" (len (slice_from size data))
                   (sum (snd <$> slice_from size data))]
           else [])
       ++ [Render.Blank; Render.Blank],
       Ok tt)
    /\ sum (snd <$> slice_to size data) + sum (snd <$> slice_from size data)
       = len senders.
Proof.
  intros data.
  assert (Hchart : Render.raised (Render.printBarChart (slice_to size data)) = None).
  { apply printBarChart_positive. intros x Hx%slice_to_elem_of.
    by apply (ranking_in_range senders). }
  unfold section_senders. rewrite !print_bind.
  match goal with
  | |- context [Render.lift ?r ≫= ?k] => destruct (average_bind data k) as [average ->]
  end.
  exists average. split; [|by rewrite sum_slices; apply reduce_and_sort_sum].
  rewrite !print_bind. unfold data at 2. rewrite reduce_and_sort_sum. fold data.
  unfold Render.raised in Hchart.
  destruct (Render.printBarChart (slice_to size data)) as [bars [[]|e]]; [|done].
  unfold Render.printed. simpl fst.
  destruct (size <? len data); reflexivity.
Qed.

Lemma senders_section_accounts_for_all_witness :
  sum (snd <$> slice_to 1 (reduce_and_sort ["a"; "b"; "a"]%string))
  + sum (snd <$> slice_from 1 (reduce_and_sort ["a"; "b"; "a"]%string)) = 3.
Proof.
  destruct (senders_section_accounts_for_all ["a"; "b"; "a"]%string 1)
    as (average & _ & Hsum).
  - unfold len. simpl. lia.
  - exact Hsum.
Defined.

(** ** The report as a whole *)

Section ReportMore.
Import Render.
Variable demojize : string -> string.

Lemma in_range_ranking {K : Type} `{EqDecision K} (elements : list K) :
  len elements < 2 ^ 53 -> in_range (reduce_and_sort elements).
Proof. intros Hlen x Hx. by apply (ranking_in_range elements). Qed.

Lemma in_range_fav {K1 K2 : Type} `{EqDecision K1} (table : list (K1 * K2 * Z)) :
  in_range table -> in_range (reduce_fav_item table).
Proof.
  intros Hin x Hx. apply Hin. unfold reduce_fav_item in Hx.
  by eapply elem_of_sublist; [|apply fav_loop_sublist].
Qed.

Lemma len_filter_le {A : Type} (P : A -> Prop) `{forall x, Decision (P x)} (l : list A) :
  len (filter P l) <= len l.
Proof. unfold len. pose proof (length_filter P l). lia. Qed.

Lemma chart_of_slice_ok {A : Type} (f : A -> string) (size : Z) (table : list (A * Z)) :
  in_range table ->
  raised (printBarChart (slice_to size ((fun x => (f x.1, x.2)) <$> table))) = None.
Proof.
  intros Hin. apply printBarChart_positive.
  intros x (y & -> & Hy)%slice_to_elem_of%list_elem_of_fmap. simpl. by apply Hin.
Qed.

Lemma chart_of_slice_ok_id (size : Z) (table : list (string * Z)) :
  in_range table -> raised (printBarChart (slice_to size table)) = None.
Proof.
  intros Hin. apply printBarChart_positive.
  intros x Hx%slice_to_elem_of. by apply Hin.
Qed.

Lemma other_part_ok (name : string) (size : Z) (data : list (string * Z)) :
  raised ((if size <? len data
           then print Dashes;;
                print (OtherLine name (len (slice_from size data))
                         (sum (snd <$> slice_from size data)))
           else mret tt);; print Blank;; print Blank) = None.
Proof. destruct (size <? len data); by rewrite ?print_bind, ?mret_bind. Qed.

Lemma section_senders_ok (size : Z) (data : list (string * Z)) :
  in_range data -> raised (section_senders size data) = None.
Proof.
  intros Hin. unfold section_senders. rewrite !raised_print.
  match goal with
  | |- context [lift ?r ≫= ?k] => destruct (average_bind data k) as [average ->]
  end.
  rewrite !raised_print.
  rewrite raised_seq by by apply chart_of_slice_ok_id.
  apply other_part_ok.
Qed.

Lemma section_domains_ok (size : Z) (data : list (string * Z)) :
  in_range data -> raised (section_domains size data) = None.
Proof.
  intros Hin. unfold section_domains. rewrite !raised_print.
  rewrite raised_seq by by apply chart_of_slice_ok_id.
  apply other_part_ok.
Qed.

Lemma section_words_ok (size : Z) (data : list (string * Z)) :
  in_range data -> raised (section_words size data) = None.
Proof.
  intros Hin. unfold section_words. rewrite !raised_print.
  rewrite raised_seq by by apply chart_of_slice_ok_id.
  apply other_part_ok.
Qed.

Lemma section_emojis_ok (size : Z) (data : list (string * Z)) :
  in_range data -> raised (section_emojis demojize size data) = None.
Proof.
  intros Hin. unfold section_emojis. rewrite !raised_print.
  rewrite raised_seq
    by by apply (chart_of_slice_ok (fun k => k ++ " (" ++ demojize k ++ ") ")%string).
  apply other_part_ok.
Qed.

Lemma section_fav_emoji_ok (size : Z) (data : list (string * string * Z)) :
  in_range data -> raised (section_fav_emoji demojize size data) = None.
Proof.
  intros Hin. unfold section_fav_emoji. rewrite !raised_print.
  rewrite raised_seq
    by by apply (chart_of_slice_ok
                   (fun k => k.1 ++ " | " ++ k.2 ++ " | (" ++ demojize k.2 ++ ")")%string).
  by rewrite !raised_print.
Qed.

Lemma section_fav_word_ok (size : Z) (data : list (string * string * Z)) :
  in_range data -> raised (section_fav_word size data) = None.
Proof.
  intros Hin. unfold section_fav_word. rewrite !raised_print.
  rewrite raised_seq
    by by apply (chart_of_slice_ok (fun k => k.1 ++ " | " ++ k.2 ++ " | ")%string).
  by rewrite !raised_print.
Qed.

Lemma printCalendar_ok (data : list (string * string * Z)) :
  raised (printCalendar data) = None.
Proof.
  destruct (max_val_largest data) as (m & Hm & _).
  by rewrite (printCalendar_rows data m Hm).
Qed.

Lemma section_heatmap_ok (data : list (string * string * Z)) :
  raised (section_heatmap data) = None.
Proof.
  unfold section_heatmap. rewrite !raised_print.
  assert (Hhead : raised
    (if 0 <? len data
     then busiest ← lift (first data);
          print (MostBusy busiest.1.1 (busiest.1.2 ++ ":00") busiest.2);;
          calmest ← lift (final data);
          print (MostSilence calmest.1.1 (calmest.1.2 ++ ":00") calmest.2)
     else mret tt) = None).
  { destruct data as [|x rest]; [done|].
    replace (0 <? len (x :: rest)) with true
      by (symmetry; apply Z.ltb_lt; unfold len; simpl; lia).
    change (first (x :: rest)) with (Ok x). rewrite lift_ok_bind, raised_print.
    unfold final. destruct (last (x :: rest)) as [y|] eqn:Hlast.
    - by rewrite lift_ok_bind.
    - by apply last_None in Hlast. }
  rewrite (raised_seq _ _ Hhead). rewrite !raised_print. apply printCalendar_ok.
Qed.
End ReportMore.

(** X14.  The report on the tables reduced from a counter whose lists are
    shorter than [2 ** 53] does not fail, whatever the modes, the sample
    size and the stop words: no chart of [main] is drawn on a scale of zero
    and no entry of an empty table is read. *)
Theorem report_never_fails (demojize : string -> string)
    (isalnum isnumeric : string -> bool) (lower : string -> string)
    (stop_words : list string) (weekday hour : Z -> string)
    (mode : option (list string)) (size : Z) (c : Parsing.chat_counter)
    (Hsmall : small c) :
  Render.raised
    (report demojize mode size
       (reduce isalnum isnumeric lower stop_words weekday hour c)) = None.
Proof.
  destruct Hsmall as (Hs & Hw & Hd & He & Ht & Hfe & Hfw).
  unfold report, reduce. cbn [t_senders t_words t_domains t_emojis t_timestamps
                              t_fav_emoji t_fav_word].
  rewrite raised_seq.
  2: { destruct (selected mode "chat"); [|done].
       by apply section_senders_ok, in_range_ranking. }
  rewrite raised_seq.
  2: { destruct (selected mode "url"); [|done].
       by apply section_domains_ok, in_range_ranking. }
  rewrite raised_seq.
  2: { destruct (selected mode "emoji"); [|done].
       rewrite raised_seq by by apply section_emojis_ok, in_range_ranking.
       by apply section_fav_emoji_ok, in_range_fav, in_range_ranking. }
  rewrite raised_seq.
  2: { destruct (selected mode "word"); [|done].
       rewrite raised_seq.
       - apply section_fav_word_ok, in_range_fav, in_range_ranking.
         rewrite fav_word_pairs_filter.
         pose proof (len_filter_le
           (fun x : string * string => counted isalnum isnumeric lower stop_words x.2)
           (Parsing.fav_word c)). lia.
       - apply section_words_ok, in_range_ranking.
         rewrite reduce_and_filter_words_filter, len_fmap.
         pose proof (len_filter_le (counted isalnum isnumeric lower stop_words)
                       (Parsing.all_words c)). lia. }
  destruct (selected mode "activity"); [|done]. apply section_heatmap_ok.
Qed.

Lemma report_never_fails_witness :
  Render.raised
    (report (fun s => s) None 2
       (reduce Str.isalnum Str.isnumeric Str.lower ["the"%string]
          (fun _ => "Monday"%string) (fun _ => "00"%string)
          {| Parsing.chat_count := 9; Parsing.deleted_chat_count := 0;
             Parsing.event_count := 0;
             Parsing.senders := replicate 7 "A"%string ++ ["B"; "C"]%string;
             Parsing.timestamps := [0; 3600000000; 7200000000];
             Parsing.all_words := ["hello"; "Hello"; "the"; "bye"]%string;
             Parsing.all_domains := ["example.com"]%string;
             Parsing.all_emojis := [":)"; ":)"; ":("]%string;
             Parsing.fav_emoji := [("A", ":)"); ("B", ":)"); ("A", ":(")]%string;
             Parsing.fav_word :=
               [("A", "hello"); ("B", "Hello"); ("B", "the"); ("C", "bye")]%string |}))
  = None.
Proof.
  apply (report_never_fails (fun s => s) Str.isalnum Str.isnumeric Str.lower
           ["the"%string] (fun _ => "Monday"%string) (fun _ => "00"%string) None 2).
  unfold small, len. simpl. lia.
Defined.

(** X15.  Under modes that name none of "chat", "url", "emoji", "word" and
    "activity", as the accepted mode "attachment" alone does, the report
    prints nothing and does not fail. *)
Theorem report_of_no_section (demojize : string -> string) (modes : list string)
    (size : Z) (t : tables)
    (Hnone : forall m, m ∈ ["chat"; "url"; "emoji"; "word"; "activity"]%string ->
                       m ∉ modes) :
  report demojize (Some modes) size t = ([], Ok tt).
Proof.
  unfold report, selected.
  rewrite !bool_decide_eq_false_2; [done|..]; apply Hnone; repeat constructor.
Qed.

Lemma report_of_no_section_witness :
  report (fun s => s) (Some ["attachment"%string]) 50
    {| t_senders := [("A"%string, 0)]; t_words := []; t_domains := [];
       t_emojis := []; t_timestamps := []; t_fav_emoji := []; t_fav_word := [] |}
  = ([], Ok tt).
Proof.
  apply (report_of_no_section (fun s => s) ["attachment"%string]).
  intros m Hm Hin. apply list_elem_of_singleton in Hin as ->.
  repeat (apply elem_of_cons in Hm as [Hm|Hm]; [discriminate|]).
  by apply elem_of_nil in Hm.
Defined.

(** X16.  A custom file of stop words that can be read replaces the list
    of the language: when the file of the language can be read too, the
    stop words are the stripped lines of the custom file alone. *)
Theorem custom_stop_words_replace (read : string -> option (list string))
    (strip : string -> string) (file language path : string)
    (lines custom : list string)
    (Hlanguage : language <> ""%string) (Hpath : path <> ""%string)
    (Hfile : read ("stop-words/" ++ language ++ ".txt")%string = Some lines)
    (Hcustom : read path = Some custom) :
  StopWords.load read strip file (Some language) (Some path)
  = StopWords.Loaded (strip <$> custom).
Proof.
  unfold StopWords.load.
  assert (Ht : forall s, s <> ""%string -> StopWords.truthy (Some s) = Some s)
    by by intros [|a s].
  by rewrite !Ht, Hfile, Hcustom.
Qed.

Lemma custom_stop_words_replace_witness :
  StopWords.load
    (fun p => if String.eqb p "mine.txt" then Some ["x "; "y"]%string
              else Some ["the"; "a"]%string)
    (fun s => s) "chat.txt" (Some "english"%string) (Some "mine.txt"%string)
  = StopWords.Loaded ["x "; "y"]%string.
Proof.
  apply (custom_stop_words_replace _ (fun s => s) "chat.txt" "english" "mine.txt"
           ["the"; "a"]%string ["x "; "y"]%string); done.
Defined.

(** X17.  When the file of the language cannot be read the run ends on the
    name of the language, whatever the custom file; when it can and the
    custom file cannot, the run ends on the name of the chat file, not on
    the path of the custom file. *)
Theorem stop_words_not_found (read : string -> option (list string))
    (strip : string -> string) (file language : string) (custom : option string)
    (Hlanguage : language <> ""%string) :
  (read ("stop-words/" ++ language ++ ".txt")%string = None ->
   StopWords.load read strip file (Some language) custom = StopWords.NotFound language)
  /\ (forall path, custom = Some path -> path <> ""%string ->
      read ("stop-words/" ++ language ++ ".txt")%string <> None ->
      read path = None ->
      StopWords.load read strip file (Some language) custom = StopWords.NotFound file).
Proof.
  assert (Ht : forall s, s <> ""%string -> StopWords.truthy (Some s) = Some s)
    by by intros [|a s].
  unfold StopWords.load. rewrite (Ht language Hlanguage). split.
  - by intros ->.
  - intros path -> Hpath Hfile Hcustom. rewrite (Ht path Hpath), Hcustom.
    by destruct (read _).
Qed.

Lemma stop_words_not_found_witness :
  StopWords.load (fun p => if String.eqb p "mine.txt" then None else Some [])
    (fun s => s) "chat.txt" (Some "english"%string) (Some "mine.txt"%string)
  = StopWords.NotFound "chat.txt".
Proof.
  destruct (stop_words_not_found
              (fun p => if String.eqb p "mine.txt" then None else Some [])
              (fun s => s) "chat.txt" "english" (Some "mine.txt"%string))
    as [_ Hcustom]; [done|].
  apply (Hcustom "mine.txt"%string); done.
Defined.
